(** * Order service: creation workflow and queries

    A shallow embedding of [internal/core/service] (the order service:
    [CreateOrder], [ConvertDTOtoSlice], [GetOrderByID], [GetOrders]).

    The service talks to collaborators that live outside this package: the
    client service, the product service, the order repository, the domain
    constructor [domain.NewOrder] and the [uuid] package.  They are
    interfaces here (type classes); each call made to them is performed on
    an explicit [World] and recorded, with its answer, in a call log, so
    that "was never invoked" and "exactly once" are statements about that
    log. *)

From Stdlib Require Import ZArith Floats Ascii String List Lia.
From stdpp Require Import gmap strings list pretty.

Local Open Scope Z_scope.

(** ** Go values: errors, results, float64 conversion *)

(** A Go [error] value.  [ErrNew] is a leaf error ([errors.New], or any
    error a collaborator produces); [ErrWrap] is what [fmt.Errorf] builds
    for a format with a [%w] verb: a message and the wrapped cause. *)
Inductive error : Type :=
| ErrNew (msg : string)
| ErrWrap (msg : string) (cause : error).

(** [err.Error()] *)
Definition Error (e : error) : string :=
  match e with
  | ErrNew msg => msg
  | ErrWrap msg _ => msg
  end.

(** [errors.Unwrap(err)] *)
Definition Unwrap (e : error) : option error :=
  match e with
  | ErrNew _ => None
  | ErrWrap _ cause => Some cause
  end.

(** [fmt.Errorf(text + "%w", err)], [text] being the already formatted
    part of the message that precedes the [%w] verb. *)
Definition Errorf (text : string) (err : error) : error :=
  ErrWrap (text +:+ Error err) err.

(** A Go pair [(value, err)] of which exactly one side is meaningful. *)
Inductive result (A : Type) : Type :=
| Ok (a : A)
| Err (e : error).
Arguments Ok {A} a.
Arguments Err {A} e.

(** [float64] is IEEE 754 binary64, here the primitive [float], whose [+]
    and [*] round after each operation.

    The language lets the compiler combine [x*y + z] into one fused
    operation, rounded once; whether it does depends on the target (the
    gc compiler fuses on arm64, ppc64le, s390x and riscv64, and by
    default not on amd64).  [fusedMulAdd x y z] is that operation: the exact value of
    [x*y + z], rounded to nearest, ties to even.  When a factor is zero,
    infinite or not a number the product is exact and nothing is gained
    by fusing; when only [z] is infinite or not a number it is the
    result. *)
Definition signedMantissa (s : bool) (m : positive) : Z :=
  if s then Z.neg m else Z.pos m.

Definition fusedMulAdd (x y z : float) : float :=
  match Prim2SF x, Prim2SF y with
  | S754_finite sx mx ex, S754_finite sy my ey =>
      let mp := signedMantissa (xorb sx sy) (mx * my) in
      let ep := ex + ey in
      match Prim2SF z with
      | S754_finite sz mz ez =>
          let e := Z.min ep ez in
          SF2Prim (binary_normalize prec emax
                     (mp * 2 ^ (ep - e) + signedMantissa sz mz * 2 ^ (ez - e))
                     e false)
      | S754_zero _ => (x * y)%float
      | _ => z
      end
  | _, _ => (z + x * y)%float
  end.

(** The target the program is compiled for, as far as it matters here. *)
Class Target : Type :=
  { fusesMulAdd : bool }.

(** [total + price * quantity] as the target computes it. *)
Definition mulAdd `{Target} (total price quantity : float) : float :=
  if fusesMulAdd then fusedMulAdd price quantity total
  else (total + price * quantity)%float.

(** [float64(n)] for a Go [int]: the nearest binary64 value, ties to even. *)
Definition float64_of_int (n : Z) : float :=
  SF2Prim (binary_normalize prec emax n 0 false).

(** [m[k]] on a Go map: the zero value when the key is absent. *)
Definition map_index (m : gmap string float) (k : string) : float :=
  default 0%float (m !! k).

(** ** Data model *)

Module dto.
(** One requested line: a product reference and a quantity (a Go [int]). *)
Record ProductItem : Type := { ID : string; Quantity : Z }.

Record CreateOrderRequest : Type :=
  { Client : string; Products : list ProductItem; Status : string }.
End dto.

Module domain.
(** A line of an order; [Price] holds the line total. *)
Record OrderItem : Type :=
  { ProductID : string; Quantity : Z; Price : float }.
End domain.

(** ** Collaborators *)

(** [port.OrderRepository] *)
Class OrderRepository (World Order : Type) : Type :=
  { repo_CreateOrder : Order -> World -> result Order * World;
    repo_GetOrderByID : string -> World -> result Order * World;
    repo_GetOrders : Z -> Z -> World -> result (list Order) * World }.

(** [*ClientService], of which the order service uses one method. *)
Class ClientService (World Client : Type) : Type :=
  { GetClientByCPF : string -> World -> result Client * World }.

(** [*ProductService], of which the order service uses one method, and the
    one field of [domain.Product] it reads. *)
Class ProductService (World Product : Type) : Type :=
  { GetProductByID : string -> World -> result Product * World;
    ProductPrice : Product -> float }.

(** [domain.NewOrder(client, items, status, total)]; it draws a fresh
    identifier, hence the [World]. *)
Class OrderFactory (World Order : Type) : Type :=
  { NewOrder : string -> list domain.OrderItem -> string -> float ->
               World -> result Order * World }.

(** [uuid.Parse] and [UUID.String] of github.com/google/uuid. *)
Class UUIDPackage (UUID : Type) : Type :=
  { uuid_Parse : string -> result UUID;
    uuid_String : UUID -> string }.

(** ** The service *)

Section Service.
Context {World Client Product Order UUID : Type}.
Context {target : Target}.
Context {clientService : ClientService World Client}.
Context {productService : ProductService World Product}.
Context {orderFactory : OrderFactory World Order}.
Context {orderRepo : OrderRepository World Order}.
Context {uuidPackage : UUIDPackage UUID}.

(** A call made to a collaborator, with the answer it gave. *)
Inductive Call : Type :=
| CallGetClientByCPF (cpf : string) (r : result Client)
| CallGetProductByID (id : string) (r : result Product)
| CallNewOrder (client : string) (items : list domain.OrderItem)
               (status : string) (total : float) (r : result Order)
| CallRepoCreateOrder (order : Order) (r : result Order)
| CallRepoGetOrderByID (id : string) (r : result Order)
| CallRepoGetOrders (page size : Z) (r : result (list Order)).

Record State : Type := { world : World; calls : list Call }.

Definition M (A : Type) : Type := State -> A * State.

Definition ret {A} (a : A) : M A := fun st => (a, st).

Definition bind {A B} (m : M A) (k : A -> M B) : M B :=
  fun st => let (a, st') := m st in k a st'.

(** Perform [f] on the world and append the call to the log. *)
Definition invoke {A} (f : World -> A * World) (ev : A -> Call) : M A :=
  fun st =>
    let (a, w) := f (world st) in
    (a, {| world := w; calls := calls st ++ [ev a] |}).

Notation "x <- m ;; k" := (bind m (fun x => k))
  (at level 100, m at next level, right associativity).

(** The body of [for _, item := range dto.Products] in [CreateOrder],
    with the two variables it updates, [total] and [productPriceMap];
    an error leaves the loop and the function.  The statement
    [total += product.Price * float64(item.Quantity)] is [mulAdd], one
    fused operation or two rounded ones as the target has it. *)
Fixpoint resolveProducts (items : list dto.ProductItem) (total : float)
    (productPriceMap : gmap string float)
  : M (result (float * gmap string float)) :=
  match items with
  | [] => ret (Ok (total, productPriceMap))
  | item :: rest =>
      r <- invoke (GetProductByID (dto.ID item))
                  (CallGetProductByID (dto.ID item)) ;;
      match r with
      | Err err =>
          ret (Err (Errorf ("product validation failed for product ID "
                            +:+ dto.ID item +:+ ": ") err))
      | Ok product =>
          resolveProducts rest
            (mulAdd total (ProductPrice product)
                    (float64_of_int (dto.Quantity item)))
            (<[dto.ID item := ProductPrice product]> productPriceMap)
      end
  end.

Definition ConvertDTOtoSlice (dtoProducts : list dto.ProductItem)
    (prices : gmap string float) : list domain.OrderItem :=
  fold_left
    (fun domainItems item =>
       domainItems ++
       [ {| domain.ProductID := dto.ID item;
            domain.Quantity := dto.Quantity item;
            domain.Price := (map_index prices (dto.ID item)
                             * float64_of_int (dto.Quantity item))%float |} ])
    dtoProducts [].

Definition CreateOrder (req : dto.CreateOrderRequest) : M (result Order) :=
  r <- invoke (GetClientByCPF (dto.Client req))
              (CallGetClientByCPF (dto.Client req)) ;;
  match r with
  | Err err => ret (Err (Errorf "client validation failed: " err))
  | Ok _ =>
      r <- resolveProducts (dto.Products req) 0%float ∅ ;;
      match r with
      | Err err => ret (Err err)
      | Ok (total, productPriceMap) =>
          let items := ConvertDTOtoSlice (dto.Products req) productPriceMap in
          r <- invoke (NewOrder (dto.Client req) items (dto.Status req) total)
                      (CallNewOrder (dto.Client req) items
                                    (dto.Status req) total) ;;
          match r with
          | Err err =>
              ret (Err (Errorf "failed to create order instance: " err))
          | Ok order =>
              r <- invoke (repo_CreateOrder order)
                          (CallRepoCreateOrder order) ;;
              match r with
              | Err err => ret (Err (Errorf "failed to save order: " err))
              | Ok savedOrder => ret (Ok savedOrder)
              end
          end
      end
  end.

Definition GetOrderByID (id : string) : M (result Order) :=
  match uuid_Parse id with
  | Err err => ret (Err (Errorf "invalid ID format: " err))
  | Ok uuidID =>
      r <- invoke (repo_GetOrderByID (uuid_String uuidID))
                  (CallRepoGetOrderByID (uuid_String uuidID)) ;;
      match r with
      | Err err => ret (Err (Errorf "order not found: " err))
      | Ok order => ret (Ok order)
      end
  end.

Definition GetOrders (page size : Z) : M (result (list Order)) :=
  let page := if page <=? 0 then 1 else page in
  let size := if size <=? 0 then 10 else size in
  r <- invoke (repo_GetOrders page size) (CallRepoGetOrders page size) ;;
  match r with
  | Err err => ret (Err err)
  | Ok orders => ret (Ok orders)
  end.

(** *** Vocabulary of the statements *)

(** The answers Product Lookup gives to the queries [ids], put to it one
    after the other from world [w], and the world they leave. *)
Fixpoint lookups (ids : list string) (w : World)
  : list (result Product) * World :=
  match ids with
  | [] => ([], w)
  | id :: rest =>
      let (r, w1) := GetProductByID id w in
      let (rs, w2) := lookups rest w1 in
      (r :: rs, w2)
  end.

(** The log entries of successful lookups of [lines], answered [ps]. *)
Definition productCalls (lines : list dto.ProductItem) (ps : list Product)
  : list Call :=
  zip_with (fun item p => CallGetProductByID (dto.ID item) (Ok p)) lines ps.

(** The price map after the lookups of [lines] were answered [ps]: each
    line stores the price it was given under its product id, in
    submission order, a later line replacing an earlier one. *)
Definition recordPrices (priced : list (dto.ProductItem * Product))
    (m : gmap string float) : gmap string float :=
  fold_left (fun m lp => <[dto.ID lp.1 := ProductPrice lp.2]> m) priced m.

Definition pricesSeen (lines : list dto.ProductItem) (ps : list Product)
  : gmap string float :=
  recordPrices (zip lines ps) ∅.

(** The running total after the lookups of [lines] were answered [ps]:
    each line adds its unit price times its quantity, in submission
    order, as the target computes it. *)
Definition addLines (priced : list (dto.ProductItem * Product))
    (total : float) : float :=
  fold_left (fun total lp =>
               mulAdd total (ProductPrice lp.2)
                      (float64_of_int (dto.Quantity lp.1)))
            priced total.

Definition orderTotal (lines : list dto.ProductItem) (ps : list Product)
  : float :=
  addLines (zip lines ps) 0%float.

(** A float64 sum taken from left to right, starting at [+0]. *)
Definition sum_float64 (xs : list float) : float :=
  fold_left PrimFloat.add xs 0%float.

(** The domain item the service builds for a line priced [price]. *)
Definition orderItem (price : float) (item : dto.ProductItem)
  : domain.OrderItem :=
  {| domain.ProductID := dto.ID item;
     domain.Quantity := dto.Quantity item;
     domain.Price := (price * float64_of_int (dto.Quantity item))%float |}.

(** What [CreateOrder] does with the answer of the repository. *)
Definition saved (r : result Order) : result Order :=
  match r with
  | Err err => Err (Errorf "failed to save order: " err)
  | Ok savedOrder => Ok savedOrder
  end.

(** What [GetOrderByID] does with the answer of the repository. *)
Definition found (r : result Order) : result Order :=
  match r with
  | Err err => Err (Errorf "order not found: " err)
  | Ok order => Ok order
  end.

(** The pagination arguments [GetOrders] passes on. *)
Definition pageOrFirst (page : Z) : Z := Z.max 1 page.
Definition sizeOrDefault (size : Z) : Z := if 0 <? size then size else 10.

(** The calls of a log that are writes to the repository. *)
Definition isWrite (c : Call) : bool :=
  match c with CallRepoCreateOrder _ _ => true | _ => false end.
Definition isProductLookup (c : Call) : bool :=
  match c with CallGetProductByID _ _ => true | _ => false end.
Definition isClientLookup (c : Call) : bool :=
  match c with CallGetClientByCPF _ _ => true | _ => false end.
(** The error kinds of the service, read off the outermost wrapper. *)
Definition ClientValidationFailed (e : error) : Prop :=
  exists cause, e = Errorf "client validation failed: " cause.
Definition ProductValidationFailed (productId : string) (e : error) : Prop :=
  exists cause,
    e = Errorf ("product validation failed for product ID "
                +:+ productId +:+ ": ") cause.
Definition InvalidIdentifierFormat (e : error) : Prop :=
  exists cause, e = Errorf "invalid ID format: " cause.
Definition OrderNotFound (e : error) : Prop :=
  exists cause, e = Errorf "order not found: " cause.

End Service.

Arguments Call : clear implicits.
Arguments State : clear implicits.

(** ** A concrete world

    An in-memory instance of the collaborators, on which the statements
    below are run: a register of clients, a price catalogue that other
    sessions keep updating, and an order store that can be unreachable. *)

Module Fixture.

Record Product : Type := { product_id : string; product_price : float }.

Record Order : Type :=
  { order_id : string;
    order_client : string;
    order_items : list domain.OrderItem;
    order_status : string;
    order_total : float }.

Record World : Type :=
  { clients : list string;
    catalog : gmap string float;
    (** price changes committed by other sessions, one taking effect
        after each read of the catalogue *)
    updates : list (string * float);
    orders : list Order;
    next_id : N;
    repo_up : bool }.

Definition ErrClientNotFound : error := ErrNew "client not found".
Definition ErrProductNotFound : error := ErrNew "product not found".
Definition ErrNoDocuments : error := ErrNew "mongo: no documents in result".
Definition ErrUnreachable : error := ErrNew "server selection error: context deadline exceeded".
Definition ErrNoItems : error := ErrNew "order must contain at least one item".

(** Modelled from the spec: Client Lookup ([ClientService.GetClientByCPF],
    whose source is not part of this development): "given a client
    identifier, returns the client record or a not-found signal". *)
Definition getClient (cpf : string) (w : World) : result string * World :=
  if bool_decide (cpf ∈ clients w) then (Ok cpf, w)
  else (Err ErrClientNotFound, w).

Definition commitUpdate (w : World) : World :=
  match updates w with
  | [] => w
  | (id, p) :: rest =>
      {| clients := clients w; catalog := <[id := p]> (catalog w);
         updates := rest; orders := orders w; next_id := next_id w;
         repo_up := repo_up w |}
  end.

(** Modelled from the spec: Product Lookup
    ([ProductService.GetProductByID], whose source is not part of this
    development): "given a product identifier, returns the product record
    (including current price) or a not-found signal"; the price is the one
    current at the time of the call. *)
Definition getProduct (id : string) (w : World) : result Product * World :=
  (match catalog w !! id with
   | Some p => Ok {| product_id := id; product_price := p |}
   | None => Err ErrProductNotFound
   end, commitUpdate w).

(** *** Identifiers

    An instance of the [uuid] interface for the hyphenated 36-character
    spelling, read without regard to case and written in lower case.  The
    other spellings the package reads (32 digits, braces, the urn prefix)
    are not used below and this instance turns them away. *)

Definition UUID : Type := list N.

Definition xvalue (c : ascii) : option N :=
  let n := Ascii.N_of_ascii c in
  if (48 <=? n)%N && (n <=? 57)%N then Some (n - 48)%N
  else if (97 <=? n)%N && (n <=? 102)%N then Some (n - 87)%N
  else if (65 <=? n)%N && (n <=? 70)%N then Some (n - 55)%N
  else None.

Definition xtob (cs : list ascii) (x : nat) : option N :=
  match cs !! x, cs !! S x with
  | Some c1, Some c2 =>
      match xvalue c1, xvalue c2 with
      | Some h, Some l => Some (16 * h + l)%N
      | _, _ => None
      end
  | _, _ => None
  end.

Definition offsets : list nat :=
  [0; 2; 4; 6; 9; 11; 14; 16; 19; 21; 24; 26; 28; 30; 32; 34]%nat.

Definition isDash (cs : list ascii) (i : nat) : bool :=
  match cs !! i with
  | Some c => (Ascii.N_of_ascii c =? 45)%N
  | None => false
  end.

Definition parse (s : string) : result UUID :=
  let cs := list_ascii_of_string s in
  if (length cs =? 36)%nat then
    if isDash cs 8 && isDash cs 13 && isDash cs 18 && isDash cs 23 then
      match mapM (xtob cs) offsets with
      | Some u => Ok u
      | None => Err (ErrNew "invalid UUID format")
      end
    else Err (ErrNew "invalid UUID format")
  else Err (ErrNew ("invalid UUID length: " +:+ pretty (length cs))).

Definition xdigit (n : N) : ascii :=
  if (n <? 10)%N then Ascii.ascii_of_N (48 + n) else Ascii.ascii_of_N (87 + n).

Definition hex (bs : list N) : list ascii :=
  b ← bs; [xdigit (b / 16)%N; xdigit (b mod 16)%N].

Definition dash : ascii := Ascii.ascii_of_N 45.

Definition format (u : UUID) : string :=
  string_of_list_ascii
    (hex (take 4 u) ++ dash :: hex (take 2 (drop 4 u)) ++
     dash :: hex (take 2 (drop 6 u)) ++ dash :: hex (take 2 (drop 8 u)) ++
     dash :: hex (drop 10 u)).

Definition freshID (n : N) : string :=
  format (replicate 15 0%N ++ [(n mod 256)%N]).

(** Modelled from the spec: [domain.NewOrder], whose source is in
    [internal/core/domain] and not part of this development.  It builds
    the aggregate from the client identifier, the line items, the status
    and the total, assigns a fresh unique identifier, and may fail on
    structural validation, "such as rejecting an empty item list".  The
    spec does not say whether it looks at quantities; this instance does
    not, and every request sent to it below has positive quantities. *)
Definition newOrder (client : string) (items : list domain.OrderItem)
    (status : string) (total : float) (w : World) : result Order * World :=
  match items with
  | [] => (Err ErrNoItems, w)
  | _ :: _ =>
      (Ok {| order_id := freshID (next_id w); order_client := client;
             order_items := items; order_status := status;
             order_total := total |},
       {| clients := clients w; catalog := catalog w; updates := updates w;
          orders := orders w; next_id := (next_id w + 1)%N;
          repo_up := repo_up w |})
  end.

(** Modelled from the spec: the Order Repository (an implementation of
    [port.OrderRepository]; none is part of this development), which
    "persists a fully-constructed order and retrieves orders by identifier
    or page"; each operation fails when the store cannot be reached. *)
Definition store (o : Order) (w : World) : result Order * World :=
  if repo_up w then
    (Ok o,
     {| clients := clients w; catalog := catalog w; updates := updates w;
        orders := orders w ++ [o]; next_id := next_id w;
        repo_up := repo_up w |})
  else (Err ErrUnreachable, w).

Definition fetch (id : string) (w : World) : result Order * World :=
  if repo_up w then
    match List.find (fun o => String.eqb (order_id o) id) (orders w) with
    | Some o => (Ok o, w)
    | None => (Err ErrNoDocuments, w)
    end
  else (Err ErrUnreachable, w).

Definition fetchPage (page size : Z) (w : World)
  : result (list Order) * World :=
  if repo_up w then
    (Ok (take (Z.to_nat size) (drop (Z.to_nat ((page - 1) * size)) (orders w))), w)
  else (Err ErrUnreachable, w).

(** The targets: one that rounds the product before it adds, as amd64,
    and one that fuses, as arm64.  The scenarios run on the first unless
    they say otherwise. *)
#[export] Instance unfused : Target := {| fusesMulAdd := false |}.
Definition fused : Target := {| fusesMulAdd := true |}.

#[export] Instance clientService : ClientService World string :=
  {| GetClientByCPF := getClient |}.
#[export] Instance productService : ProductService World Product :=
  {| GetProductByID := getProduct; ProductPrice := product_price |}.
#[export] Instance orderFactory : OrderFactory World Order :=
  {| NewOrder := newOrder |}.
#[export] Instance orderRepo : OrderRepository World Order :=
  {| repo_CreateOrder := store; repo_GetOrderByID := fetch;
     repo_GetOrders := fetchPage |}.
#[export] Instance uuidPackage : UUIDPackage UUID :=
  {| uuid_Parse := parse; uuid_String := format |}.

(** The world of the worked scenario: one client, products P1 at 10.00
    and P2 at 5.50, no order yet. *)
Definition shop : World :=
  {| clients := ["11122233344"];
     catalog := <["P1" := 10%float]> (<["P2" := 5.5%float]> ∅);
     updates := []; orders := []; next_id := 1%N; repo_up := true |}.

(** The same shop while another session raises the price of P1 to 20. *)
Definition repricing : World :=
  {| clients := clients shop; catalog := catalog shop;
     updates := [("P1", 20%float)]; orders := []; next_id := 1%N;
     repo_up := true |}.

(** The same shop with the order store unreachable. *)
Definition offline : World :=
  {| clients := clients shop; catalog := catalog shop;
     updates := []; orders := []; next_id := 1%N; repo_up := false |}.

Definition start (w : World) : State World string Product Order :=
  {| world := w; calls := [] |}.

Definition request (lines : list (string * Z)) : dto.CreateOrderRequest :=
  {| dto.Client := "11122233344";
     dto.Products := (fun l => {| dto.ID := l.1; dto.Quantity := l.2 |}) <$> lines;
     dto.Status := "pending" |}.

(** Values of the scenarios. *)
Definition P1 : Product := {| product_id := "P1"; product_price := 10 |}.
Definition P2 : Product := {| product_id := "P2"; product_price := 5.5 |}.
Definition line (id : string) (q : Z) : dto.ProductItem :=
  {| dto.ID := id; dto.Quantity := q |}.
Definition item (id : string) (q : Z) (lineTotal : float) : domain.OrderItem :=
  {| domain.ProductID := id; domain.Quantity := q; domain.Price := lineTotal |}.
Definition clientCall : Call string Product Order :=
  CallGetClientByCPF "11122233344" (Ok "11122233344").

(** The identifier 00000000-0000-0000-0000-0000000000ab. *)
Definition idAB : UUID := replicate 15 0%N ++ [171%N].

End Fixture.


(** ** The HTTP handlers

    [internal/adapter/handler/httpserver]: the order handler, which drives
    the service above, and the product handler.  A handler reads its
    request and writes on an [http.ResponseWriter]; what it writes is
    returned here as the list of the operations it performs on the
    writer, in order. *)

(** Status codes of [net/http]. *)
Definition StatusOK : Z := 200.
Definition StatusCreated : Z := 201.
Definition StatusBadRequest : Z := 400.
Definition StatusNotFound : Z := 404.
Definition StatusInternalServerError : Z := 500.

(** [strings.Contains(s, substr)]: [substr] occurs in [s], at the start or
    further on. *)
Fixpoint Contains (s substr : string) : bool :=
  String.prefix substr s
  || match s with
     | EmptyString => false
     | String _ rest => Contains rest substr
     end.

(** What a handler reads of [*http.Request]: the body, the URL parameters
    of the route ([chi.URLParam], empty when absent) and the query values
    ([r.URL.Query().Get], empty when absent). *)
Record Request : Type :=
  { Body : string;
    URLParam : string -> string;
    Query : string -> string }.

(** A value handed to [json.NewEncoder(w).Encode]. *)
Inductive Payload (Order Product : Type) : Type :=
| JSONOrder (order : Order)
| JSONOrders (orders : list Order)
| JSONProduct (product : Product)
| JSONProducts (products : list Product)
| JSONObject (fields : list (string * string)).
Arguments JSONOrder {Order Product} order.
Arguments JSONOrders {Order Product} orders.
Arguments JSONProduct {Order Product} product.
Arguments JSONProducts {Order Product} products.
Arguments JSONObject {Order Product} fields.

(** An operation on the response writer. *)
Inductive Write (Order Product : Type) : Type :=
| HttpError (msg : string) (code : Z)
| HeaderSet (key value : string)
| WriteHeader (code : Z)
| Encode (v : Payload Order Product).
Arguments HttpError {Order Product} msg code.
Arguments HeaderSet {Order Product} key value.
Arguments WriteHeader {Order Product} code.
Arguments Encode {Order Product} v.

(** The status a reply carries: that of its first [http.Error] or
    [WriteHeader]. *)
Fixpoint replyStatus {Order Product} (ws : list (Write Order Product))
  : option Z :=
  match ws with
  | [] => None
  | HttpError _ code :: _ => Some code
  | WriteHeader code :: _ => Some code
  | _ :: rest => replyStatus rest
  end.

(** [json.NewDecoder(r.Body).Decode(&v)] at the two request types. *)
Class OrderRequestDecoder : Type :=
  { decodeCreateOrderRequest : string -> result dto.CreateOrderRequest }.

Class ProductRequestDecoder (ProductRequest : Type) : Type :=
  { decodeCreateProductRequest : string -> result ProductRequest }.

(** [strconv.Atoi] *)
Class Strconv : Type :=
  { Atoi : string -> result Z }.

(** The methods of [*ProductService] that only the product handler uses;
    [GetProductByID] is the one of [ProductService] above. *)
Class ProductAdmin (World Product ProductRequest : Type) : Type :=
  { CreateProduct : ProductRequest -> World -> result Product * World;
    UpdateProduct : string -> ProductRequest -> World -> result Product * World;
    GetProducts : string -> Z -> Z -> World -> result (list Product) * World;
    DeleteProduct : string -> World -> option error * World }.

Section Handlers.
Context {World Client Product Order UUID ProductRequest : Type}.
Context {target : Target}.
Context {clientService : ClientService World Client}.
Context {productService : ProductService World Product}.
Context {orderFactory : OrderFactory World Order}.
Context {orderRepo : OrderRepository World Order}.
Context {uuidPackage : UUIDPackage UUID}.
Context {orderDecoder : OrderRequestDecoder}.
Context {productDecoder : ProductRequestDecoder ProductRequest}.
Context {strconv : Strconv}.
Context {productAdmin : ProductAdmin World Product ProductRequest}.

(** *** More vocabulary for the order service *)

Definition OrderConstructionFailed (e : error) : Prop :=
  exists cause, e = Errorf "failed to create order instance: " cause.
Definition PersistenceFailed (e : error) : Prop :=
  exists cause, e = Errorf "failed to save order: " cause.

(** The orders a log shows the repository to have reported as saved. *)
Definition savedOrders (log : list (Call Client Product Order)) : list Order :=
  omap (fun c => match c with
                 | CallRepoCreateOrder _ (Ok savedOrder) => Some savedOrder
                 | _ => None
                 end) log.

(** *** The order handler *)

Definition jsonReply (code : Z) (v : Payload Order Product)
  : list (Write Order Product) :=
  [HeaderSet "Content-Type" "application/json"; WriteHeader code; Encode v].

Definition OrderHandler_CreateOrder (r : Request)
    (st : State World Client Product Order)
  : list (Write Order Product) * State World Client Product Order :=
  match decodeCreateOrderRequest (Body r) with
  | Err _ => ([HttpError "Invalid request body" StatusBadRequest], st)
  | Ok orderDto =>
      let (res, st') := CreateOrder orderDto st in
      match res with
      | Err err => ([HttpError (Error err) StatusInternalServerError], st')
      | Ok order => (jsonReply StatusCreated (JSONOrder order), st')
      end
  end.

Definition OrderHandler_GetOrderByID (r : Request)
    (st : State World Client Product Order)
  : list (Write Order Product) * State World Client Product Order :=
  let id := URLParam r "id" in
  if String.eqb id "" then
    ([HttpError "Invalid order ID" StatusBadRequest], st)
  else
    let (res, st') := GetOrderByID id st in
    match res with
    | Err _ => ([HttpError "Order not found" StatusNotFound], st')
    | Ok order => (jsonReply StatusOK (JSONOrder order), st')
    end.

Definition OrderHandler_GetOrders (r : Request)
    (st : State World Client Product Order)
  : list (Write Order Product) * State World Client Product Order :=
  let page := match Atoi (Query r "page") with
              | Err _ => 1
              | Ok page => if page <? 1 then 1 else page
              end in
  let size := match Atoi (Query r "pageSize") with
              | Err _ => 10
              | Ok size => if size <=? 0 then 10 else size
              end in
  let (res, st') := GetOrders page size st in
  match res with
  | Err _ => ([HttpError "Failed to retrieve orders"
                         StatusInternalServerError], st')
  | Ok orders => (jsonReply StatusOK (JSONOrders orders), st')
  end.

(** *** The product handler *)

(** A call the product handler makes to the product service, with the
    answer it gave. *)
Inductive ProductCall : Type :=
| CallCreateProduct (req : ProductRequest) (r : result Product)
| CallUpdateProduct (id : string) (req : ProductRequest) (r : result Product)
| CallProductByID (id : string) (r : result Product)
| CallGetProducts (category : string) (page size : Z)
                  (r : result (list Product))
| CallDeleteProduct (id : string) (r : option error).

Record Served : Type := { store_world : World; served : list ProductCall }.

(** Perform [f] on the world and append the call to the log. *)
Definition serve {A} (f : World -> A * World) (ev : A -> ProductCall)
    (sv : Served) : A * Served :=
  let (a, w) := f (store_world sv) in
  (a, {| store_world := w; served := served sv ++ [ev a] |}).

Definition ProductHandler_CreateProduct (r : Request) (sv : Served)
  : list (Write Order Product) * Served :=
  match decodeCreateProductRequest (Body r) with
  | Err _ => ([HttpError "Invalid request body" StatusBadRequest], sv)
  | Ok productDto =>
      let (res, sv') := serve (CreateProduct productDto)
                              (CallCreateProduct productDto) sv in
      match res with
      | Err err => ([HttpError (Error err) StatusInternalServerError], sv')
      | Ok product => (jsonReply StatusCreated (JSONProduct product), sv')
      end
  end.

Definition ProductHandler_UpdateProduct (r : Request) (sv : Served)
  : list (Write Order Product) * Served :=
  let id := URLParam r "id" in
  if String.eqb id "" then
    ([HttpError "Invalid product ID" StatusBadRequest], sv)
  else
    match decodeCreateProductRequest (Body r) with
    | Err _ => ([HttpError "Invalid request body" StatusBadRequest], sv)
    | Ok productDto =>
        let (res, sv') := serve (UpdateProduct id productDto)
                                (CallUpdateProduct id productDto) sv in
        match res with
        | Err err =>
            if Contains (Error err) "not found" then
              ([HttpError "Product not found" StatusNotFound], sv')
            else
              ([HttpError "Error updating product"
                          StatusInternalServerError], sv')
        | Ok product => (jsonReply StatusOK (JSONProduct product), sv')
        end
    end.

Definition ProductHandler_GetProductByID (r : Request) (sv : Served)
  : list (Write Order Product) * Served :=
  let id := URLParam r "id" in
  if String.eqb id "" then
    ([HttpError "Invalid product ID" StatusBadRequest], sv)
  else
    let (res, sv') := serve (GetProductByID id) (CallProductByID id) sv in
    match res with
    | Err err =>
        if Contains (Error err) "not found" then
          ([HttpError "Product not found" StatusNotFound], sv')
        else
          ([HttpError "Error retrieving product"
                      StatusInternalServerError], sv')
    | Ok product => (jsonReply StatusOK (JSONProduct product), sv')
    end.

Definition ProductHandler_GetProducts (r : Request) (sv : Served)
  : list (Write Order Product) * Served :=
  let page := match Atoi (Query r "page") with
              | Err _ => 1
              | Ok page => if page <? 1 then 1 else page
              end in
  let size := match Atoi (Query r "pageSize") with
              | Err _ => 10
              | Ok size => if size <=? 0 then 10 else size
              end in
  let category := Query r "category" in
  let (res, sv') := serve (GetProducts category page size)
                          (CallGetProducts category page size) sv in
  match res with
  | Err err => ([HttpError (Error err) StatusInternalServerError], sv')
  | Ok products => (jsonReply StatusOK (JSONProducts products), sv')
  end.

Definition ProductHandler_DeleteProduct (r : Request) (sv : Served)
  : list (Write Order Product) * Served :=
  let id := URLParam r "id" in
  if String.eqb id "" then
    ([HttpError "Invalid product ID" StatusBadRequest], sv)
  else
    let (err, sv') := serve (DeleteProduct id) (CallDeleteProduct id) sv in
    match err with
    | Some err =>
        if Contains (Error err) "not found" then
          ([HttpError "Product not found" StatusNotFound], sv')
        else
          ([HttpError "Error deleting product"
                      StatusInternalServerError], sv')
    | None =>
        (jsonReply StatusOK
           (JSONObject [("message",
                         "Product with ID " +:+ id
                         +:+ " deleted successfully.")]), sv')
    end.

End Handlers.

Arguments ProductCall : clear implicits.
Arguments Served : clear implicits.

(** ** A concrete front end

    Instances of the product decoder, of [strconv.Atoi] and of the
    product service over the world of [Fixture], for the handler
    statements. *)

Module HttpFixture.

(** A product submission, of which the scenarios use the price. *)
Record ProductRequest : Type := { request_price : float }.

Definition ErrSyntax : error := ErrNew "strconv.Atoi: invalid syntax".
Definition ErrRange : error := ErrNew "strconv.Atoi: value out of range".
Definition ErrBody : error := ErrNew "unexpected EOF".

(** *** Decimal integers *)

Definition digit (c : ascii) : option Z :=
  let n := Z.of_N (Ascii.N_of_ascii c) in
  if (48 <=? n) && (n <=? 57) then Some (n - 48) else None.

Fixpoint digits (cs : list ascii) (acc : Z) : option Z :=
  match cs with
  | [] => Some acc
  | c :: rest =>
      match digit c with
      | Some d => digits rest (10 * acc + d)
      | None => None
      end
  end.

(** An optional sign, then one digit or more; the value must fit a Go
    [int]. *)
Definition atoi (s : string) : result Z :=
  let cs := list_ascii_of_string s in
  let signed :=
    match cs with
    | c :: rest =>
        if (Ascii.N_of_ascii c =? 45)%N then (true, rest)
        else if (Ascii.N_of_ascii c =? 43)%N then (false, rest)
        else (false, cs)
    | [] => (false, [])
    end in
  match signed.2 with
  | [] => Err ErrSyntax
  | _ :: _ =>
      match digits signed.2 0 with
      | None => Err ErrSyntax
      | Some n =>
          let v := if signed.1 then - n else n in
          if (- 2 ^ 63 <=? v) && (v <? 2 ^ 63) then Ok v else Err ErrRange
      end
  end.

(** *** Bodies

    The product decoder of the scenarios is not a JSON parser: it knows
    the one well-formed body the scenarios send, and takes every other
    text for malformed.  It is used on that body and on a text cut off
    in the middle of an object, where it answers as [encoding/json]
    does. *)

Definition quoted (s : string) : string :=
  String (Ascii.ascii_of_N 34) s +:+ String (Ascii.ascii_of_N 34) "".

(** The body that reads: price 12.5, the key in double quotes. *)
Definition newPrice : string := "{" +:+ quoted "price" +:+ ":12.5}".

(** The same body cut off after the key. *)
Definition cutOff : string := "{" +:+ quoted "price" +:+ ":".

Definition decodeProduct (body : string) : result ProductRequest :=
  if String.eqb body newPrice then Ok {| request_price := 12.5 |}
  else Err ErrBody.

(** *** The product service *)

Definition withCatalog (c : gmap string float) (w : Fixture.World)
  : Fixture.World :=
  {| Fixture.clients := Fixture.clients w; Fixture.catalog := c;
     Fixture.updates := Fixture.updates w; Fixture.orders := Fixture.orders w;
     Fixture.next_id := Fixture.next_id w; Fixture.repo_up := Fixture.repo_up w |}.

Definition lookupProduct (id : string) (w : Fixture.World)
  : result Fixture.Product * Fixture.World :=
  if Fixture.repo_up w then
    match Fixture.getProduct id w with
    | (Err err, w') => (Err (Errorf "failed to get product: " err), w')
    | found => found
    end
  else (Err Fixture.ErrUnreachable, w).

Definition createProduct (p : ProductRequest) (w : Fixture.World)
  : result Fixture.Product * Fixture.World :=
  if Fixture.repo_up w then
    let id := Fixture.freshID (Fixture.next_id w) in
    (Ok {| Fixture.product_id := id;
           Fixture.product_price := request_price p |},
     {| Fixture.clients := Fixture.clients w;
        Fixture.catalog := <[id := request_price p]> (Fixture.catalog w);
        Fixture.updates := Fixture.updates w;
        Fixture.orders := Fixture.orders w;
        Fixture.next_id := (Fixture.next_id w + 1)%N;
        Fixture.repo_up := Fixture.repo_up w |})
  else (Err Fixture.ErrUnreachable, w).

Definition updateProduct (id : string) (p : ProductRequest) (w : Fixture.World)
  : result Fixture.Product * Fixture.World :=
  if Fixture.repo_up w then
    match Fixture.catalog w !! id with
    | Some _ =>
        (Ok {| Fixture.product_id := id;
               Fixture.product_price := request_price p |},
         withCatalog (<[id := request_price p]> (Fixture.catalog w)) w)
    | None =>
        (Err (Errorf "failed to update product: " Fixture.ErrProductNotFound), w)
    end
  else (Err Fixture.ErrUnreachable, w).

Definition listProducts (category : string) (page size : Z) (w : Fixture.World)
  : result (list Fixture.Product) * Fixture.World :=
  if Fixture.repo_up w then
    (Ok ((fun kv => {| Fixture.product_id := kv.1;
                       Fixture.product_price := kv.2 |})
         <$> take (Z.to_nat size)
                  (drop (Z.to_nat ((page - 1) * size))
                        (map_to_list (Fixture.catalog w)))), w)
  else (Err Fixture.ErrUnreachable, w).

Definition deleteProduct (id : string) (w : Fixture.World)
  : option error * Fixture.World :=
  if Fixture.repo_up w then
    match Fixture.catalog w !! id with
    | Some _ => (None, withCatalog (delete id (Fixture.catalog w)) w)
    | None => (Some Fixture.ErrProductNotFound, w)
    end
  else (Some Fixture.ErrUnreachable, w).

#[export] Instance productDecoder : ProductRequestDecoder ProductRequest :=
  {| decodeCreateProductRequest := decodeProduct |}.
#[export] Instance strconv : Strconv := {| Atoi := atoi |}.
#[export] Instance productLookup
  : ProductService Fixture.World Fixture.Product :=
  {| GetProductByID := lookupProduct;
     ProductPrice := Fixture.product_price |}.
#[export] Instance productAdmin
  : ProductAdmin Fixture.World Fixture.Product ProductRequest :=
  {| CreateProduct := createProduct; UpdateProduct := updateProduct;
     GetProducts := listProducts; DeleteProduct := deleteProduct |}.

(** *** Requests *)

Definition post (body : string) : Request :=
  {| Body := body; URLParam := fun _ => ""; Query := fun _ => "" |}.

Definition onID (id body : string) : Request :=
  {| Body := body;
     URLParam := fun key => if String.eqb key "id" then id else "";
     Query := fun _ => "" |}.

Definition listing (page pageSize category : string) : Request :=
  {| Body := "";
     URLParam := fun _ => "";
     Query := fun key =>
                if String.eqb key "page" then page
                else if String.eqb key "pageSize" then pageSize
                else if String.eqb key "category" then category
                else "" |}.

Definition open (w : Fixture.World)
  : Served Fixture.World Fixture.Product ProductRequest :=
  {| store_world := w; served := [] |}.

End HttpFixture.

(** ** Properties *)

Section Properties.
Context {World Client Product Order UUID : Type}.
Context {target : Target}.
Context {clientService : ClientService World Client}.
Context {productService : ProductService World Product}.
Context {orderFactory : OrderFactory World Order}.
Context {orderRepo : OrderRepository World Order}.
Context {uuidPackage : UUIDPackage UUID}.

Implicit Types (req : dto.CreateOrderRequest) (w : World).
Implicit Types (lines pre post : list dto.ProductItem) (ps : list Product).
Implicit Types (log : list (Call Client Product Order)).
Implicit Types (st : State World Client Product Order).

Local Abbreviation productCalls :=
  (productCalls (Client:=Client) (Order:=Order)).

Ltac step := unfold bind, invoke, ret; simpl.

(** Bring both logs of an equation to right-nested form. *)
Ltac relog := repeat (rewrite <- app_assoc; simpl); try done.

(** *** Messages *)

Lemma append_assoc (s1 s2 s3 : string) :
  (s1 +:+ s2) +:+ s3 = s1 +:+ (s2 +:+ s3).
Proof.
  induction s1 as [|c s1 IH]; [reflexivity|].
  change (String c ((s1 +:+ s2) +:+ s3) = String c (s1 +:+ (s2 +:+ s3))).
  by rewrite IH.
Qed.

(** *** The conversion loop *)

Lemma ConvertDTOtoSlice_from lines (prices : gmap string float) acc :
  fold_left
    (fun domainItems item =>
       domainItems ++
       [ {| domain.ProductID := dto.ID item;
            domain.Quantity := dto.Quantity item;
            domain.Price := (map_index prices (dto.ID item)
                             * float64_of_int (dto.Quantity item))%float |} ])
    lines acc
  = acc ++ ((fun item => orderItem (map_index prices (dto.ID item)) item) <$> lines).
Proof.
  revert acc; induction lines as [|item rest IH]; intros acc; simpl.
  - by rewrite app_nil_r.
  - rewrite IH, <- app_assoc. reflexivity.
Qed.

Lemma ConvertDTOtoSlice_fmap lines (prices : gmap string float) :
  ConvertDTOtoSlice lines prices
  = (fun item => orderItem (map_index prices (dto.ID item)) item) <$> lines.
Proof. unfold ConvertDTOtoSlice. by rewrite ConvertDTOtoSlice_from. Qed.

(** *** The lookup loop *)

Lemma lookups_all_ok_length ids w ps w' :
  lookups ids w = (Ok <$> ps, w') -> length ps = length ids.
Proof.
  revert w ps; induction ids as [|id rest IH]; intros w ps H; simpl in H.
  - destruct ps; [done | discriminate].
  - destruct (GetProductByID id w) as [r w1].
    destruct (lookups rest w1) as [rs w2] eqn:E.
    destruct ps as [|p ps]; simpl in H; [discriminate|].
    injection H as -> -> ->. simpl. f_equal. eauto.
Qed.

Lemma resolveProducts_ok lines : forall ps total m w w' log,
  lookups (dto.ID <$> lines) w = (Ok <$> ps, w') ->
  resolveProducts lines total m {| world := w; calls := log |}
  = (Ok (addLines (zip lines ps) total, recordPrices (zip lines ps) m),
     {| world := w'; calls := log ++ productCalls lines ps |}).
Proof.
  induction lines as [|item rest IH]; intros ps total m w w' log H; simpl in H.
  - destruct ps; simpl in H; [|discriminate]. injection H as ->.
    simpl. unfold ret, productCalls. simpl. by rewrite app_nil_r.
  - destruct (GetProductByID (dto.ID item) w) as [r w1] eqn:E1.
    destruct (lookups _ w1) as [rs w2] eqn:E2.
    destruct ps as [|p ps]; simpl in H; [discriminate|].
    injection H as -> -> ->.
    simpl. step. rewrite E1.
    rewrite (IH ps _ _ w1 w' _ E2).
    unfold productCalls. simpl. by rewrite <- app_assoc.
Qed.

Lemma resolveProducts_fail pre : forall item post ps cause total m w w1 w2 log,
  lookups (dto.ID <$> pre) w = (Ok <$> ps, w1) ->
  GetProductByID (dto.ID item) w1 = (Err cause, w2) ->
  resolveProducts (pre ++ item :: post) total m {| world := w; calls := log |}
  = (Err (Errorf ("product validation failed for product ID "
                  +:+ dto.ID item +:+ ": ") cause),
     {| world := w2;
        calls := log ++ productCalls pre ps
                     ++ [CallGetProductByID (dto.ID item) (Err cause)] |}).
Proof.
  induction pre as [|line rest IH];
    intros item post ps cause total m w w1 w2 log H Hfail; simpl in H.
  - destruct ps; simpl in H; [|discriminate]. injection H as ->.
    simpl. step. by rewrite Hfail.
  - destruct (GetProductByID (dto.ID line) w) as [r w'] eqn:E1.
    destruct (lookups _ w') as [rs w''] eqn:E2.
    destruct ps as [|p ps]; simpl in H; [discriminate|].
    injection H as -> -> ->.
    simpl. step. rewrite E1.
    rewrite (IH item post ps cause _ _ w' w1 w2 _ E2 Hfail).
    unfold productCalls. simpl. by rewrite <- app_assoc.
Qed.

Lemma resolveProducts_inv lines : forall total m st out (st' : State World Client Product Order),
  resolveProducts lines total m st = (Ok out, st') ->
  exists ps,
    lookups (dto.ID <$> lines) (world st) = (Ok <$> ps, world st') /\
    calls st' = calls st ++ productCalls lines ps.
Proof.
  induction lines as [|item rest IH]; intros total m st out st' H; simpl in H.
  - unfold ret in H. injection H as _ <-. exists []. simpl.
    unfold productCalls. simpl. by rewrite app_nil_r.
  - revert H. step.
    destruct (GetProductByID _ _) as [r w1] eqn:E1.
    destruct r as [p|e]; [|intros H; simpl in H; discriminate H].
    intros H. apply IH in H as (ps & Hl & Hc). simpl in Hl, Hc.
    exists (p :: ps). simpl.
    change (list_fmap _ _ dto.ID rest) with (dto.ID <$> rest). rewrite Hl. split; [done|].
    rewrite Hc. unfold productCalls. simpl. by rewrite <- app_assoc.
Qed.

(** *** Past validation *)

Lemma CreateOrder_validated req w w1 w2 log client ps :
  GetClientByCPF (dto.Client req) w = (Ok client, w1) ->
  lookups (dto.ID <$> dto.Products req) w1 = (Ok <$> ps, w2) ->
  let items := ConvertDTOtoSlice (dto.Products req)
                                 (pricesSeen (dto.Products req) ps) in
  let total := orderTotal (dto.Products req) ps in
  let looked := log ++ CallGetClientByCPF (dto.Client req) (Ok client)
                    :: productCalls (dto.Products req) ps in
  CreateOrder req {| world := w; calls := log |}
  = let (r, w3) := NewOrder (dto.Client req) items (dto.Status req) total w2 in
    let built := looked ++ [CallNewOrder (dto.Client req) items
                                         (dto.Status req) total r] in
    match r with
    | Err err => (Err (Errorf "failed to create order instance: " err),
                  {| world := w3; calls := built |})
    | Ok order =>
        let (r', w4) := repo_CreateOrder order w3 in
        (saved r',
         {| world := w4; calls := built ++ [CallRepoCreateOrder order r'] |})
    end.
Proof.
  intros Hclient Hlook items total looked. subst items total looked.
  unfold CreateOrder. step. rewrite Hclient.
  rewrite (resolveProducts_ok _ ps _ _ w1 w2 _ Hlook).
  unfold pricesSeen, orderTotal. simpl.
  rewrite <- (app_assoc log [_] _). simpl.
  destruct (NewOrder _ _ _ _ _) as [r w3]. destruct r as [order|err]; [|done].
  simpl. destruct (repo_CreateOrder _ _) as [r' w4]. by destruct r'.
Qed.

(** *** Counting calls in a log *)

Lemma productCalls_length lines : forall ps,
  length ps = length lines -> length (productCalls lines ps) = length lines.
Proof.
  unfold productCalls. induction lines as [|line rest IH]; intros [|p ps] Hlen;
    simpl in *; try done. f_equal. apply IH. lia.
Qed.

Lemma productCalls_lookups lines : forall ps,
  List.filter isProductLookup (productCalls lines ps) = productCalls lines ps.
Proof.
  unfold productCalls.
  induction lines as [|line rest IH]; intros [|p ps]; simpl; try done.
  by rewrite IH.
Qed.

Lemma productCalls_no_write lines : forall ps,
  List.filter isWrite (productCalls lines ps) = [].
Proof.
  unfold productCalls.
  induction lines as [|line rest IH]; intros [|p ps]; simpl; try done.
Qed.

Lemma productCalls_no_client lines : forall ps,
  List.filter isClientLookup (productCalls lines ps) = [].
Proof.
  unfold productCalls.
  induction lines as [|line rest IH]; intros [|p ps]; simpl; try done.
Qed.

Lemma last_two (l : list (Call Client Product Order)) a b :
  last (l ++ [a; b]) = Some b.
Proof.
  replace (l ++ [a; b]) with ((l ++ [a]) ++ [b]) by (by rewrite <- app_assoc).
  apply last_snoc.
Qed.

(** *** Order creation *)

(** C2.  When the client lookup succeeds, the first K-1 product lookups
    succeed and the K-th fails, [CreateOrder] returns the "product
    validation failed" error that names the K-th product id and wraps the
    cause; the log ends with that K-th lookup: K product lookups, none
    after it, and no write to the repository. *)
Theorem product_failure_fails_fast
    req pre item post w w1 w2 w3 log client ps cause :
  dto.Products req = pre ++ item :: post ->
  GetClientByCPF (dto.Client req) w = (Ok client, w1) ->
  lookups (dto.ID <$> pre) w1 = (Ok <$> ps, w2) ->
  GetProductByID (dto.ID item) w2 = (Err cause, w3) ->
  let e := Errorf ("product validation failed for product ID "
                   +:+ dto.ID item +:+ ": ") cause in
  let made := CallGetClientByCPF (dto.Client req) (Ok client)
              :: productCalls pre ps
              ++ [CallGetProductByID (dto.ID item) (Err cause)] in
  CreateOrder req {| world := w; calls := log |}
  = (Err e, {| world := w3; calls := log ++ made |}) /\
  ProductValidationFailed (dto.ID item) e /\
  Unwrap e = Some cause /\
  Error e = "product validation failed for product ID "
            +:+ dto.ID item +:+ ": " +:+ Error cause /\
  length (List.filter isProductLookup made) = S (length pre) /\
  List.filter isWrite made = [].
Proof.
  intros Hreq Hclient Hlook Hfail e made.
  assert (Hlen : length ps = length pre).
  { rewrite (lookups_all_ok_length _ _ _ _ Hlook). by rewrite length_fmap. }
  repeat split.
  - unfold CreateOrder. step. rewrite Hclient, Hreq.
    rewrite (resolveProducts_fail pre item post ps cause _ _ w1 w2 w3 _
               Hlook Hfail).
    simpl. unfold e, made. by rewrite <- app_assoc.
  - by exists cause.
  - unfold e, Errorf. simpl. by rewrite !append_assoc.
  - unfold made. simpl. rewrite List.filter_app, productCalls_lookups.
    simpl. rewrite length_app, (productCalls_length _ _ Hlen). simpl. lia.
  - unfold made. simpl. by rewrite List.filter_app, productCalls_no_write.
Qed.

(** C3.  When the client lookup fails, for whatever reason, [CreateOrder]
    returns the "client validation failed" error wrapping the cause, and
    the client lookup is the only call it makes: no product lookup, no
    constructor call, no write to the repository. *)
Theorem client_failure_aborts req w w1 log cause :
  GetClientByCPF (dto.Client req) w = (Err cause, w1) ->
  let e := Errorf "client validation failed: " cause in
  CreateOrder req {| world := w; calls := log |}
  = (Err e,
     {| world := w1;
        calls := log ++ [CallGetClientByCPF (dto.Client req) (Err cause)] |}) /\
  ClientValidationFailed e /\
  Unwrap e = Some cause /\
  Error e = "client validation failed: " +:+ Error cause.
Proof.
  intros Hclient e. repeat split.
  - unfold CreateOrder. step. by rewrite Hclient.
  - by exists cause.
Qed.

(** C7.  A request with no product line is not turned away by the
    service itself.  The client lookup is made as for any request and its
    failure is reported as such; once it has succeeded, no product is
    looked up and the aggregate constructor is called with an empty item
    list and total 0.  Only the constructor's refusal rejects the request
    at this stage, and an order it returns goes on to the repository. *)
Theorem empty_request_reaches_constructor req w log :
  dto.Products req = [] ->
  let looked := GetClientByCPF (dto.Client req) w in
  match looked.1 with
  | Err cause =>
      CreateOrder req {| world := w; calls := log |}
      = (Err (Errorf "client validation failed: " cause),
         {| world := looked.2;
            calls := log ++ [CallGetClientByCPF (dto.Client req) (Err cause)] |})
  | Ok client =>
      let constructed :=
        NewOrder (dto.Client req) [] (dto.Status req) 0%float looked.2 in
      let built := log ++ [CallGetClientByCPF (dto.Client req) (Ok client);
                           CallNewOrder (dto.Client req) [] (dto.Status req)
                                        0%float constructed.1] in
      match constructed.1 with
      | Err err =>
          CreateOrder req {| world := w; calls := log |}
          = (Err (Errorf "failed to create order instance: " err),
             {| world := constructed.2; calls := built |})
      | Ok order =>
          let written := repo_CreateOrder order constructed.2 in
          CreateOrder req {| world := w; calls := log |}
          = (saved written.1,
             {| world := written.2;
                calls := built ++ [CallRepoCreateOrder order written.1] |})
      end
  end.
Proof.
  intros Hreq looked.
  destruct looked as [[client|cause] w1] eqn:Hclient; simpl.
  - assert (Hlook : lookups (dto.ID <$> dto.Products req) w1
                    = (Ok <$> ([] : list Product), w1)) by (by rewrite Hreq).
    pose proof (CreateOrder_validated req w w1 w1 log client [] Hclient Hlook)
      as Hrun. cbv zeta in Hrun. rewrite Hrun, Hreq. clear Hrun.
    unfold ConvertDTOtoSlice, orderTotal, addLines, productCalls. simpl.
    destruct (NewOrder (dto.Client req) [] (dto.Status req) 0%float w1)
      as [[order|err] w2]; simpl; rewrite <- (app_assoc log [_] [_]); simpl;
      [|done].
    by destruct (repo_CreateOrder order w2) as [r' w3].
  - unfold CreateOrder. step. unfold looked in Hclient. by rewrite Hclient.
Qed.

(** C10.  A creation that completes successfully has made, in this
    order: one client lookup, one product lookup per line of the request
    in submission order, one call of the aggregate constructor, and then
    one write to the repository, of the order the constructor returned.
    Nothing else is called. *)
Theorem successful_creation_call_sequence req st savedOrder
    (st' : State World Client Product Order) :
  CreateOrder req st = (Ok savedOrder, st') ->
  exists client ps items total order,
    let made := CallGetClientByCPF (dto.Client req) (Ok client)
                :: productCalls (dto.Products req) ps
                ++ [CallNewOrder (dto.Client req) items (dto.Status req)
                                 total (Ok order);
                    CallRepoCreateOrder order (Ok savedOrder)] in
    calls st' = calls st ++ made /\
    length ps = length (dto.Products req) /\
    length (List.filter isClientLookup made) = 1%nat /\
    length (List.filter isProductLookup made) = length (dto.Products req) /\
    List.filter isWrite made = [CallRepoCreateOrder order (Ok savedOrder)] /\
    last made = Some (CallRepoCreateOrder order (Ok savedOrder)).
Proof.
  unfold CreateOrder. step.
  destruct (GetClientByCPF _ _) as [r w1] eqn:Hclient.
  destruct r as [client|err]; [|intros H; simpl in H; discriminate H].
  destruct (resolveProducts _ _ _ _) as [r st1] eqn:Hloop.
  destruct r as [[total prices]|err]; [|intros H; simpl in H; discriminate H].
  apply resolveProducts_inv in Hloop as (ps & Hlook & Hcalls).
  simpl in Hlook, Hcalls.
  destruct (NewOrder _ _ _ _ _) as [r w3].
  destruct r as [order|err]; [|intros H; simpl in H; discriminate H].
  simpl. destruct (repo_CreateOrder _ _) as [r' w4].
  destruct r' as [o|err]; [|intros H; simpl in H; discriminate H].
  intros H. injection H as -> <-. simpl.
  assert (Hlen : length ps = length (dto.Products req)).
  { rewrite (lookups_all_ok_length _ _ _ _ Hlook). by rewrite length_fmap. }
  exists client, ps, (ConvertDTOtoSlice (dto.Products req) prices), total, order.
  repeat split.
  - rewrite Hcalls, <- !app_assoc. reflexivity.
  - done.
  - by rewrite List.filter_app, productCalls_no_client.
  - rewrite List.filter_app, productCalls_lookups. simpl.
    rewrite length_app, (productCalls_length _ _ Hlen). simpl. lia.
  - by rewrite List.filter_app, productCalls_no_write.
  - exact (last_two (CallGetClientByCPF _ _ :: productCalls _ _) _ _).
Qed.

(** *** Queries *)

(** C4.  [GetOrders] makes exactly one call, to the repository, with the
    page raised to at least 1 and a non-positive size replaced by 10, and
    returns the repository's answer as it is, error or not.  It behaves
    on [(page, size)] as on the normalised pair; in particular
    [GetOrders 0 (-5)] is [GetOrders 1 10]. *)
Theorem GetOrders_normalises_pagination (page size : Z) st :
  let p := pageOrFirst page in
  let s := sizeOrDefault size in
  let answer := repo_GetOrders p s (world st) in
  GetOrders page size st
  = (answer.1,
     {| world := answer.2;
        calls := calls st ++ [CallRepoGetOrders p s answer.1] |}) /\
  GetOrders page size st = GetOrders p s st /\
  GetOrders 0 (-5) st = GetOrders 1 10 st /\
  p = (if decide (page <= 0) then 1 else page) /\
  s = (if decide (size <= 0) then 10 else size) /\
  1 <= p /\ 1 <= s.
Proof.
  intros p s answer.
  assert (Hp : (if page <=? 0 then 1 else page) = p).
  { unfold p, pageOrFirst. destruct (Z.leb_spec page 0); lia. }
  assert (Hs : (if size <=? 0 then 10 else size) = s).
  { unfold s, sizeOrDefault.
    destruct (Z.leb_spec size 0), (Z.ltb_spec 0 size); lia. }
  assert (Hp' : (if p <=? 0 then 1 else p) = p).
  { unfold p, pageOrFirst. destruct (Z.leb_spec (Z.max 1 page) 0); lia. }
  assert (Hs' : (if s <=? 0 then 10 else s) = s).
  { assert (1 <= s)
      by (unfold s, sizeOrDefault; destruct (Z.ltb_spec 0 size); lia).
    destruct (Z.leb_spec s 0); lia. }
  assert (Hrun : GetOrders page size st
                 = (answer.1,
                    {| world := answer.2;
                       calls := calls st ++ [CallRepoGetOrders p s answer.1] |})).
  { unfold GetOrders. step. rewrite Hp, Hs. fold answer.
    destruct answer as [r w']. by destruct r. }
  repeat split.
  - exact Hrun.
  - rewrite Hrun. unfold GetOrders. step. rewrite Hp', Hs'. fold answer.
    destruct answer as [r w']. by destruct r.
  - unfold p, pageOrFirst. destruct (decide (page <= 0)); lia.
  - unfold s, sizeOrDefault.
    destruct (decide (size <= 0)), (Z.ltb_spec 0 size); lia.
  - unfold p, pageOrFirst. lia.
  - unfold s, sizeOrDefault. destruct (Z.ltb_spec 0 size); lia.
Qed.

(** C5.  An identifier that [uuid.Parse] rejects makes [GetOrderByID]
    return the "invalid ID format" error wrapping the parse failure, with
    the state untouched: no call is made, to the repository or anyone. *)
Theorem malformed_id_rejected (id : string) st cause :
  uuid_Parse id = Err cause ->
  let e := Errorf "invalid ID format: " cause in
  GetOrderByID id st = (Err e, st) /\
  InvalidIdentifierFormat e /\
  Unwrap e = Some cause /\
  Error e = "invalid ID format: " +:+ Error cause.
Proof.
  intros Hparse e. repeat split.
  - unfold GetOrderByID. by rewrite Hparse.
  - by exists cause.
Qed.

(** C6 (as amended).  For a well-formed identifier, whatever error the
    repository reports, not-found or of any other kind, [GetOrderByID]
    returns it under the one "order not found" wrapper, the repository's
    error being the wrapped cause; it returns an order exactly when the
    repository does.  No other error kind comes out of this path. *)
Theorem repository_error_reported_as_not_found (id : string) st u :
  uuid_Parse id = Ok u ->
  let answer := repo_GetOrderByID (uuid_String u) (world st) in
  match answer.1 with
  | Err cause =>
      let e := Errorf "order not found: " cause in
      (GetOrderByID id st).1 = Err e /\
      OrderNotFound e /\
      Unwrap e = Some cause /\
      Error e = "order not found: " +:+ Error cause
  | Ok order => (GetOrderByID id st).1 = Ok order
  end.
Proof.
  intros Hparse answer. unfold GetOrderByID. rewrite Hparse. step.
  fold answer. destruct answer as [[order|cause] w']; simpl; [done|].
  repeat split. by exists cause.
Qed.

(** C9.  For an identifier that parses, [GetOrderByID] makes exactly one
    call: it asks the repository for the re-serialised form
    [uuid_String u] of the parsed value.  Hence two spellings that parse
    to the same UUID produce the same query and the same run. *)
Theorem lookup_uses_canonical_id (id id' : string) st u :
  uuid_Parse id = Ok u ->
  uuid_Parse id' = Ok u ->
  let answer := repo_GetOrderByID (uuid_String u) (world st) in
  GetOrderByID id st
  = (found answer.1,
     {| world := answer.2;
        calls := calls st ++ [CallRepoGetOrderByID (uuid_String u) answer.1] |}) /\
  GetOrderByID id' st = GetOrderByID id st.
Proof.
  intros Hparse Hparse' answer. unfold GetOrderByID.
  rewrite Hparse, Hparse'. split; [|done].
  step. fold answer. destruct answer as [r w']. by destruct r.
Qed.

End Properties.

(** ** Further properties of the order service *)

Section ServiceRuns.
Context {World Client Product Order UUID : Type}.
Context {target : Target}.
Context {clientService : ClientService World Client}.
Context {productService : ProductService World Product}.
Context {orderFactory : OrderFactory World Order}.
Context {orderRepo : OrderRepository World Order}.
Context {uuidPackage : UUIDPackage UUID}.

Implicit Types (req : dto.CreateOrderRequest) (w : World).
Implicit Types (lines pre post : list dto.ProductItem) (ps : list Product).
Implicit Types (log new : list (Call Client Product Order)).
Implicit Types (st : State World Client Product Order).
Implicit Types (answers : list (result Product)).

Local Abbreviation productCalls :=
  (productCalls (Client:=Client) (Order:=Order)).
Local Abbreviation lookupCalls :=
  (zip_with (CallGetProductByID (Client:=Client) (Order:=Order))).

Ltac run := unfold bind, invoke, ret; simpl.

(** *** Reading a log *)

Lemma savedOrders_app log new :
  savedOrders (log ++ new) = savedOrders log ++ savedOrders new.
Proof. apply omap_app. Qed.

Lemma lookupCalls_saved (ids : list string) : forall answers,
  savedOrders (lookupCalls ids answers) = [].
Proof.
  induction ids as [|id ids IH]; intros [|a answers]; simpl; try done.
Qed.

Lemma productCalls_saved lines : forall ps,
  savedOrders (productCalls lines ps) = [].
Proof.
  unfold productCalls.
  induction lines as [|line lines IH]; intros [|p ps]; simpl; try done.
Qed.

(** *** Every run of the lookup loop *)

Lemma resolveProducts_run lines : forall total m st,
  exists answers,
    (length answers <= length lines)%nat /\
    calls (resolveProducts lines total m st).2
    = calls st ++ lookupCalls (dto.ID <$> lines) answers /\
    match (resolveProducts lines total m st).1 with
    | Ok _ => length answers = length lines
    | Err e =>
        exists item cause,
          item ∈ lines /\
          e = Errorf ("product validation failed for product ID "
                      +:+ dto.ID item +:+ ": ") cause
    end.
Proof.
  induction lines as [|item rest IH]; intros total m st.
  - exists []. simpl. unfold ret. simpl. by rewrite app_nil_r.
  - simpl. run.
    destruct (GetProductByID (dto.ID item) (world st)) as [r w1].
    destruct r as [product|cause].
    + match goal with
      | |- context [resolveProducts rest ?t ?m' ?s] =>
          destruct (IH t m' s) as (answers & Hlen & Hcalls & Hres)
      end.
      exists (Ok product :: answers). simpl. split; [lia|]. split.
      * rewrite Hcalls. simpl. by rewrite <- app_assoc.
      * match goal with
        | |- match (resolveProducts rest ?t ?m' ?s).1 with _ => _ end =>
            destruct (resolveProducts rest t m' s).1 as [out|e]
        end.
        -- by rewrite Hres.
        -- destruct Hres as (line & cause & Hin & ->).
           exists line, cause. split; [by right | done].
    + exists [Err cause]. simpl. split; [lia|]. split; [by destruct rest|].
      exists item, cause. split; [by left | done].
Qed.

Lemma resolveProducts_outcome lines : forall total m st,
  (exists ps out,
     length ps = length lines /\
     (resolveProducts lines total m st).1 = Ok out /\
     calls (resolveProducts lines total m st).2
     = calls st ++ productCalls lines ps) \/
  (exists pre item post ps cause,
     lines = pre ++ item :: post /\
     length ps = length pre /\
     (resolveProducts lines total m st).1
     = Err (Errorf ("product validation failed for product ID "
                    +:+ dto.ID item +:+ ": ") cause) /\
     calls (resolveProducts lines total m st).2
     = calls st ++ productCalls pre ps
                ++ [CallGetProductByID (dto.ID item) (Err cause)]).
Proof.
  induction lines as [|line rest IH]; intros total m st.
  - left. exists [], (total, m). simpl. unfold ret, productCalls. simpl.
    by rewrite app_nil_r.
  - simpl. run.
    destruct (GetProductByID (dto.ID line) (world st)) as [r w1].
    destruct r as [product|cause].
    + match goal with
      | |- context [resolveProducts rest ?t ?m' ?s] =>
          destruct (IH t m' s)
            as [(ps & out & Hlen & Hres & Hcalls)
               |(pre & item & post & ps & cause & Hlines & Hlen & Hres & Hcalls)]
      end.
      * left. exists (product :: ps), out. simpl. split; [by rewrite Hlen|].
        split; [exact Hres|]. rewrite Hcalls. simpl.
        unfold productCalls. simpl. by rewrite <- app_assoc.
      * right. exists (line :: pre), item, post, (product :: ps), cause.
        simpl. split; [by rewrite Hlines|]. split; [by rewrite Hlen|].
        split; [exact Hres|]. rewrite Hcalls. simpl.
        unfold productCalls. simpl. by rewrite <- app_assoc.
    + right. exists [], line, rest, [], cause. simpl. by unfold productCalls.
Qed.

(** *** Every run of [CreateOrder] *)

Lemma CreateOrder_run req st :
  exists r answers tail,
    calls (CreateOrder req st).2
    = calls st ++ CallGetClientByCPF (dto.Client req) r
               :: lookupCalls (dto.ID <$> dto.Products req) answers ++ tail /\
    (length answers <= length (dto.Products req))%nat /\
    match (CreateOrder req st).1 with
    | Ok savedOrder =>
        exists items total order,
          length answers = length (dto.Products req) /\
          tail = [CallNewOrder (dto.Client req) items (dto.Status req) total
                               (Ok order);
                  CallRepoCreateOrder order (Ok savedOrder)]
    | Err e =>
        (ClientValidationFailed e /\ answers = [] /\ tail = []) \/
        ((exists item, item ∈ dto.Products req /\
                       ProductValidationFailed (dto.ID item) e) /\
         tail = []) \/
        (OrderConstructionFailed e /\
         length answers = length (dto.Products req) /\
         exists items total cause,
           tail = [CallNewOrder (dto.Client req) items (dto.Status req) total
                                (Err cause)]) \/
        (PersistenceFailed e /\
         length answers = length (dto.Products req) /\
         exists items total order cause,
           tail = [CallNewOrder (dto.Client req) items (dto.Status req) total
                                (Ok order);
                   CallRepoCreateOrder order (Err cause)])
    end.
Proof.
  unfold CreateOrder. run.
  destruct (GetClientByCPF (dto.Client req) (world st)) as [r w1].
  destruct r as [client|cause].
  - match goal with
    | |- context [resolveProducts ?l ?t ?m ?s] =>
        destruct (resolveProducts_run l t m s) as (answers & Hlen & Hcalls & Hres);
        destruct (resolveProducts l t m s) as [res st1]
    end.
    simpl in Hcalls, Hres.
    exists (Ok client), answers.
    destruct res as [[total prices]|e].
    + destruct (NewOrder _ _ _ _ _) as [rn w3].
      destruct rn as [order|cause]; simpl.
      * destruct (repo_CreateOrder order w3) as [rw w4].
        destruct rw as [savedOrder|cause]; simpl.
        -- eexists. split; [|split; [exact Hlen|]].
           ++ rewrite Hcalls. repeat (rewrite <- app_assoc; simpl).
              reflexivity.
           ++ by eexists _, _, _.
        -- eexists. split; [|split; [exact Hlen|]].
           ++ rewrite Hcalls. repeat (rewrite <- app_assoc; simpl).
              reflexivity.
           ++ right. right. right. split; [by exists cause|].
              split; [done|]. by eexists _, _, _, _.
      * eexists. split; [|split; [exact Hlen|]].
        -- rewrite Hcalls. repeat (rewrite <- app_assoc; simpl). reflexivity.
        -- right. right. left. split; [by exists cause|].
           split; [done|]. by eexists _, _, _.
    + simpl. exists []. split; [|split; [exact Hlen|]].
      * rewrite Hcalls. repeat (rewrite <- app_assoc; simpl).
        by rewrite app_nil_r.
      * right. left. split; [|done].
        destruct Hres as (item & cause & Hin & ->).
        exists item. split; [done|]. by exists cause.
  - exists (Err cause), [], []. simpl. split; [|split; [lia|]].
    + by destruct (dto.Products req).
    + left. split; [by exists cause | done].
Qed.

Lemma CreateOrder_saved req st :
  exists new,
    calls (CreateOrder req st).2 = calls st ++ new /\
    savedOrders new = match (CreateOrder req st).1 with
                      | Ok savedOrder => [savedOrder]
                      | Err _ => []
                      end.
Proof.
  destruct (CreateOrder_run req st) as (r & answers & tail & Hcalls & Hlen & Hres).
  eexists. split; [exact Hcalls|].
  change (savedOrders ([CallGetClientByCPF (dto.Client req) r]
                       ++ lookupCalls (dto.ID <$> dto.Products req) answers
                       ++ tail) = match (CreateOrder req st).1 with
                                  | Ok savedOrder => [savedOrder]
                                  | Err _ => []
                                  end).
  rewrite !savedOrders_app, lookupCalls_saved. simpl.
  destruct (CreateOrder req st).1 as [savedOrder|e].
  - by destruct Hres as (items & total & order & _ & ->).
  - by destruct Hres as [(_ & _ & ->)|[(_ & ->)|[(_ & _ & items & total & cause & ->)
                        |(_ & _ & items & total & order & cause & ->)]]].
Qed.

(** *** The price map, key by key *)

Lemma recordPrices_other (priced : list (dto.ProductItem * Product)) :
  forall (m : gmap string float) (key : string),
    key ∉ (fun lp => dto.ID lp.1) <$> priced ->
    recordPrices priced m !! key = m !! key.
Proof.
  unfold recordPrices.
  induction priced as [|lp priced IH]; intros m key Hkey; simpl; [done|].
  rewrite fmap_cons in Hkey. apply not_elem_of_cons in Hkey as [Hne Hkey].
  rewrite IH by done. by rewrite lookup_insert_ne.
Qed.

Lemma zip_ids lines : forall ps,
  (fun lp : dto.ProductItem * Product => dto.ID lp.1) <$> zip lines ps
  = take (length ps) (dto.ID <$> lines).
Proof.
  induction lines as [|line lines IH]; intros [|p ps]; simpl; try done.
  by rewrite IH.
Qed.

(** *** Steps 4 and 5 of the workflow *)

(** X1.  When the client and every product were found but
    [domain.NewOrder] refuses the items, [CreateOrder] returns the "failed
    to create order instance" error wrapping the constructor's, and stops
    there: the constructor call is the last call, nothing is written. *)
Theorem construction_failure_is_wrapped req w w1 w2 w3 log client ps cause :
  GetClientByCPF (dto.Client req) w = (Ok client, w1) ->
  lookups (dto.ID <$> dto.Products req) w1 = (Ok <$> ps, w2) ->
  let items := ConvertDTOtoSlice (dto.Products req)
                                 (pricesSeen (dto.Products req) ps) in
  let total := orderTotal (dto.Products req) ps in
  NewOrder (dto.Client req) items (dto.Status req) total w2 = (Err cause, w3) ->
  let e := Errorf "failed to create order instance: " cause in
  let made := CallGetClientByCPF (dto.Client req) (Ok client)
              :: productCalls (dto.Products req) ps
              ++ [CallNewOrder (dto.Client req) items (dto.Status req) total
                               (Err cause)] in
  CreateOrder req {| world := w; calls := log |}
  = (Err e, {| world := w3; calls := log ++ made |}) /\
  OrderConstructionFailed e /\
  Unwrap e = Some cause /\
  List.filter isWrite made = [].
Proof.
  intros Hclient Hlook items total Hnew e made.
  pose proof (CreateOrder_validated req w w1 w2 log client ps Hclient Hlook)
    as Hrun. cbv zeta in Hrun. fold items total in Hrun.
  rewrite Hnew in Hrun. repeat split.
  - rewrite Hrun. unfold made. by rewrite <- app_assoc.
  - by exists cause.
  - unfold made. simpl. rewrite List.filter_app.
    by rewrite productCalls_no_write.
Qed.

(** X2.  When the order was constructed but the repository fails to save
    it, [CreateOrder] returns the "failed to save order" error wrapping
    the repository's; the repository was asked once, after the
    constructor, and reported no order saved. *)
Theorem persistence_failure_is_wrapped
    req w w1 w2 w3 w4 log client ps order cause :
  GetClientByCPF (dto.Client req) w = (Ok client, w1) ->
  lookups (dto.ID <$> dto.Products req) w1 = (Ok <$> ps, w2) ->
  let items := ConvertDTOtoSlice (dto.Products req)
                                 (pricesSeen (dto.Products req) ps) in
  let total := orderTotal (dto.Products req) ps in
  NewOrder (dto.Client req) items (dto.Status req) total w2 = (Ok order, w3) ->
  repo_CreateOrder order w3 = (Err cause, w4) ->
  let e := Errorf "failed to save order: " cause in
  let made := CallGetClientByCPF (dto.Client req) (Ok client)
              :: productCalls (dto.Products req) ps
              ++ [CallNewOrder (dto.Client req) items (dto.Status req) total
                               (Ok order);
                  CallRepoCreateOrder order (Err cause)] in
  CreateOrder req {| world := w; calls := log |}
  = (Err e, {| world := w4; calls := log ++ made |}) /\
  PersistenceFailed e /\
  Unwrap e = Some cause /\
  List.filter isWrite made = [CallRepoCreateOrder order (Err cause)] /\
  savedOrders made = [].
Proof.
  intros Hclient Hlook items total Hnew Hsave e made.
  pose proof (CreateOrder_validated req w w1 w2 log client ps Hclient Hlook)
    as Hrun. cbv zeta in Hrun. fold items total in Hrun.
  rewrite Hnew, Hsave in Hrun. repeat split.
  - rewrite Hrun. unfold made. simpl.
    repeat (rewrite <- app_assoc; simpl). reflexivity.
  - by exists cause.
  - unfold made. simpl. rewrite List.filter_app.
    by rewrite productCalls_no_write.
  - unfold made.
    change (savedOrders ([CallGetClientByCPF (dto.Client req) (Ok client)]
                         ++ productCalls (dto.Products req) ps
                         ++ [CallNewOrder (dto.Client req) items
                               (dto.Status req) total (Ok order);
                             CallRepoCreateOrder order (Err cause)]) = []).
    by rewrite !savedOrders_app, productCalls_saved.
Qed.

(** *** What every run does and never does *)

(** X3.  Whatever the request and whatever the collaborators answer,
    the calls of a run of [CreateOrder] are, in this order: the client
    lookup; if it succeeded, successful product lookups of the lines in
    submission order, which either stop at the first lookup that fails,
    with nothing after it, or reach the last line; only then one call of
    the constructor; and, only if the constructor returned an order, one
    write of that order to the repository, as the last call. *)
Theorem CreateOrder_call_discipline req st :
  exists r rest,
    calls (CreateOrder req st).2
    = calls st ++ CallGetClientByCPF (dto.Client req) r :: rest /\
    ((exists cause, r = Err cause /\ rest = []) \/
     (exists client pre item post ps cause,
        r = Ok client /\
        dto.Products req = pre ++ item :: post /\
        length ps = length pre /\
        rest = productCalls pre ps
               ++ [CallGetProductByID (dto.ID item) (Err cause)]) \/
     (exists client ps items total rn tail,
        r = Ok client /\
        length ps = length (dto.Products req) /\
        rest = productCalls (dto.Products req) ps
               ++ CallNewOrder (dto.Client req) items (dto.Status req) total rn
               :: tail /\
        match rn with
        | Err _ => tail = []
        | Ok order => exists rw, tail = [CallRepoCreateOrder order rw]
        end)).
Proof.
  unfold CreateOrder. run.
  destruct (GetClientByCPF (dto.Client req) (world st)) as [r w1].
  destruct r as [client|cause].
  - match goal with
    | |- context [resolveProducts ?l ?t ?m ?s] =>
        destruct (resolveProducts_outcome l t m s)
          as [(ps & out & Hlen & Hres & Hcalls)
             |(pre & item & post & ps & cause & Hlines & Hlen & Hres & Hcalls)];
        destruct (resolveProducts l t m s) as [res st1]
    end; simpl in Hres, Hcalls; subst res.
    + destruct out as [total prices].
      destruct (NewOrder _ _ _ _ _) as [rn w3].
      destruct rn as [order|cause]; simpl.
      * destruct (repo_CreateOrder order w3) as [rw w4].
        eexists (Ok client), _. split.
        -- destruct rw; simpl; rewrite Hcalls;
             repeat (rewrite <- app_assoc; simpl); reflexivity.
        -- right. right.
           exists client, ps, (ConvertDTOtoSlice (dto.Products req) prices),
             total, (Ok order), [CallRepoCreateOrder order rw].
           repeat split; [done|]. by exists rw.
      * eexists (Ok client), _. split.
        -- rewrite Hcalls. repeat (rewrite <- app_assoc; simpl). reflexivity.
        -- right. right.
           by exists client, ps, (ConvertDTOtoSlice (dto.Products req) prices),
             total, (Err cause), [].
    + simpl. eexists (Ok client), _. split.
      * rewrite Hcalls. repeat (rewrite <- app_assoc; simpl). reflexivity.
      * right. left. by exists client, pre, item, post, ps, cause.
  - exists (Err cause), []. simpl. split; [done|]. left. by exists cause.
Qed.

(** X4.  An error from [CreateOrder] is of one of four kinds: client
    validation, product validation for one of the request's lines,
    construction, or persistence; and in a run that ends in an error the
    repository has reported no order as saved. *)
Theorem CreateOrder_failure_saves_nothing req st e
    (st' : State World Client Product Order) :
  CreateOrder req st = (Err e, st') ->
  (ClientValidationFailed e \/
   (exists item, item ∈ dto.Products req /\
                 ProductValidationFailed (dto.ID item) e) \/
   OrderConstructionFailed e \/
   PersistenceFailed e) /\
  exists new, calls st' = calls st ++ new /\ savedOrders new = [].
Proof.
  intros Hrun.
  destruct (CreateOrder_run req st) as (r & answers & tail & Hcalls & Hlen & Hres).
  rewrite Hrun in Hcalls, Hres. simpl in Hcalls, Hres.
  assert (Hsaved : savedOrders tail = [] ->
            savedOrders (CallGetClientByCPF (dto.Client req) r
                         :: lookupCalls (dto.ID <$> dto.Products req) answers
                         ++ tail) = []).
  { intros Htail.
    change (savedOrders ([CallGetClientByCPF (dto.Client req) r]
                         ++ lookupCalls (dto.ID <$> dto.Products req) answers
                         ++ tail) = []).
    by rewrite !savedOrders_app, lookupCalls_saved, Htail. }
  destruct Hres as [(He & _ & Ht)|[(He & Ht)|[(He & _ & items & total & cause & Ht)
                   |(He & _ & items & total & order & cause & Ht)]]];
    (split; [tauto|]); eexists; (split; [exact Hcalls|]);
    apply Hsaved; by rewrite Ht.
Qed.

(** *** Lines that name the same product *)

Lemma pricesSeen_last pre item post (ps_pre ps_post : list Product) p :
  length ps_pre = length pre ->
  dto.ID item ∉ dto.ID <$> post ->
  map_index (pricesSeen (pre ++ item :: post) (ps_pre ++ p :: ps_post))
            (dto.ID item)
  = ProductPrice p.
Proof.
  intros Hlen Hlast. unfold map_index, pricesSeen.
  rewrite (zip_with_app pair pre _ ps_pre _) by (symmetry; exact Hlen).
  unfold recordPrices at 1. rewrite fold_left_app. simpl.
  fold (recordPrices (zip_with pair pre ps_pre) ∅).
  match goal with
  | |- context [fold_left ?f ?l ?m] => change (fold_left f l m)
                                         with (recordPrices l m)
  end.
  rewrite recordPrices_other.
  - by rewrite lookup_insert_eq.
  - change (zip_with pair post ps_post) with (zip post ps_post).
    rewrite zip_ids. intros Hin. apply Hlast.
    apply elem_of_take in Hin as (j & Hj & _).
    by eapply list_elem_of_lookup_2.
Qed.

(** X5.  When a request names a product on several lines, [CreateOrder]
    prices all of them from the last lookup of that product: if [item],
    answered [p], is the last line of the request with its product id,
    then in the items [CreateOrder] hands to the constructor every line
    with that id, earlier ones too, has the line total [p]'s price times
    its own quantity. *)
Theorem repeated_product_takes_last_price
    req w w1 w2 log client ps pre item post (ps_pre ps_post : list Product) p :
  GetClientByCPF (dto.Client req) w = (Ok client, w1) ->
  lookups (dto.ID <$> dto.Products req) w1 = (Ok <$> ps, w2) ->
  dto.Products req = pre ++ item :: post ->
  ps = ps_pre ++ p :: ps_post ->
  length ps_pre = length pre ->
  dto.ID item ∉ dto.ID <$> post ->
  exists items total rn tail,
    calls (CreateOrder req {| world := w; calls := log |}).2
    = log ++ CallGetClientByCPF (dto.Client req) (Ok client)
          :: productCalls (dto.Products req) ps
          ++ CallNewOrder (dto.Client req) items (dto.Status req) total rn
          :: tail /\
    length items = length (dto.Products req) /\
    forall (i : nat) line,
      dto.Products req !! i = Some line -> dto.ID line = dto.ID item ->
      items !! i
      = Some {| domain.ProductID := dto.ID line;
                domain.Quantity := dto.Quantity line;
                domain.Price := (ProductPrice p
                                 * float64_of_int (dto.Quantity line))%float |}.
Proof.
  intros Hclient Hlook Hlines Hps Hlen Hlast.
  pose proof (CreateOrder_validated req w w1 w2 log client ps Hclient Hlook)
    as Hrun. cbv zeta in Hrun.
  exists (ConvertDTOtoSlice (dto.Products req)
                            (pricesSeen (dto.Products req) ps)),
    (orderTotal (dto.Products req) ps).
  destruct (NewOrder (dto.Client req) _ (dto.Status req) _ w2) as [rn w3].
  assert (Hitems :
    length (ConvertDTOtoSlice (dto.Products req)
                              (pricesSeen (dto.Products req) ps))
    = length (dto.Products req) /\
    forall (i : nat) line,
      dto.Products req !! i = Some line -> dto.ID line = dto.ID item ->
      ConvertDTOtoSlice (dto.Products req) (pricesSeen (dto.Products req) ps)
      !! i
      = Some {| domain.ProductID := dto.ID line;
                domain.Quantity := dto.Quantity line;
                domain.Price := (ProductPrice p
                                 * float64_of_int (dto.Quantity line))%float |}).
  { rewrite ConvertDTOtoSlice_fmap. split; [by rewrite length_fmap|].
    intros i line Hi Hid. rewrite list_lookup_fmap, Hi. simpl.
    unfold orderItem. rewrite Hid, Hlines, Hps.
    by rewrite (pricesSeen_last pre item post ps_pre ps_post p Hlen Hlast). }
  destruct rn as [order|cause].
  - destruct (repo_CreateOrder order w3) as [rw w4].
    exists (Ok order), [CallRepoCreateOrder order rw].
    rewrite Hrun. simpl. split; [|exact Hitems].
    repeat (rewrite <- app_assoc; simpl). reflexivity.
  - exists (Err cause), []. rewrite Hrun. simpl. split; [|exact Hitems].
    repeat (rewrite <- app_assoc; simpl). reflexivity.
Qed.

(** *** The conversion *)

(** X6.  [ConvertDTOtoSlice] returns one item per line, in the order of
    the lines, and does so line by line: converting a concatenation is
    concatenating the conversions.  The item at a position copies the
    line's product id and quantity, and its line total is the price the
    map holds for that id times the quantity, a missing id counting as
    price 0. *)
Theorem ConvertDTOtoSlice_keeps_lines lines lines' (prices : gmap string float) :
  length (ConvertDTOtoSlice lines prices) = length lines /\
  ConvertDTOtoSlice (lines ++ lines') prices
  = ConvertDTOtoSlice lines prices ++ ConvertDTOtoSlice lines' prices /\
  forall i : nat,
    ConvertDTOtoSlice lines prices !! i
    = (fun line =>
         {| domain.ProductID := dto.ID line;
            domain.Quantity := dto.Quantity line;
            domain.Price := (default 0%float (prices !! dto.ID line)
                             * float64_of_int (dto.Quantity line))%float |})
      <$> lines !! i.
Proof.
  rewrite !ConvertDTOtoSlice_fmap. repeat split.
  - by rewrite length_fmap.
  - by rewrite fmap_app.
  - intros i. by rewrite list_lookup_fmap.
Qed.

End ServiceRuns.

(** ** Properties of the handlers *)

(** *** [strings.Contains] *)

Lemma prefix_occurs (p s : string) :
  String.prefix p s = true <-> exists b, s = p +:+ b.
Proof.
  revert s. induction p as [|c p IH]; intros s.
  - split; [intros _; by exists s | by destruct s].
  - destruct s as [|d s]; simpl.
    + split; [done | by intros [b Hb]].
    + destruct (Ascii.ascii_dec c d) as [->|Hne].
      * rewrite IH. split; intros [b Hb]; exists b.
        -- change (String d s = String d (p +:+ b)). by rewrite Hb.
        -- change (String d s = String d (p +:+ b)) in Hb. by injection Hb.
      * split; [done|]. intros [b Hb].
        change (String d s = String c (p +:+ b)) in Hb. by injection Hb.
Qed.

Lemma Contains_occurs (s p : string) :
  Contains s p = true <-> exists a b, s = a +:+ p +:+ b.
Proof.
  induction s as [|c s IH].
  - change (Contains "" p) with (String.prefix p "" || false).
    rewrite orb_false_r, prefix_occurs. split.
    + intros [b Hb]. by exists "", b.
    + intros (a & b & Hab). destruct a as [|d a]; [by exists b|].
      change ("" = String d (a +:+ p +:+ b)) in Hab. done.
  - change (Contains (String c s) p)
      with (String.prefix p (String c s) || Contains s p).
    rewrite orb_true_iff, IH, prefix_occurs. split.
    + intros [[b Hb]|(a & b & Hab)].
      * by exists "", b.
      * exists (String c a), b.
        change (String c s = String c (a +:+ p +:+ b)). by rewrite Hab.
    + intros (a & b & Hab). destruct a as [|d a].
      * left. by exists b.
      * right. exists a, b.
        change (String c s = String d (a +:+ p +:+ b)) in Hab.
        by injection Hab.
Qed.

Lemma Contains_wrapped (text : string) (cause : error) (p : string) :
  Contains (Error cause) p = true ->
  Contains (Error (Errorf text cause)) p = true.
Proof.
  rewrite !Contains_occurs. intros (a & b & Hab).
  exists (text +:+ a), b. unfold Errorf. simpl. rewrite Hab.
  clear Hab. induction text as [|c text IH]; [done|].
  change (String c (text +:+ a +:+ p +:+ b)
          = String c ((text +:+ a) +:+ p +:+ b)).
  by rewrite IH.
Qed.

Section HandlerProperties.
Context {World Client Product Order UUID ProductRequest : Type}.
Context {target : Target}.
Context {clientService : ClientService World Client}.
Context {productService : ProductService World Product}.
Context {orderFactory : OrderFactory World Order}.
Context {orderRepo : OrderRepository World Order}.
Context {uuidPackage : UUIDPackage UUID}.
Context {orderDecoder : OrderRequestDecoder}.
Context {productDecoder : ProductRequestDecoder ProductRequest}.
Context {strconv : Strconv}.
Context {productAdmin : ProductAdmin World Product ProductRequest}.

Implicit Types (r : Request).
Implicit Types (st : State World Client Product Order).
Implicit Types (sv : Served World Product ProductRequest).

Local Abbreviation Reply := (list (Write Order Product)).

Ltac run := unfold bind, invoke, serve, ret; simpl.

(** *** The order handler *)

(** X7.  The order-creation handler replies 400 "Invalid request body",
    having called nothing, when the body does not decode.  Otherwise it
    runs the service once: it replies 201 with the order the repository
    returned exactly when the repository reported that one order saved,
    and 500 carrying the service error's message when the repository
    reported none. *)
Theorem OrderHandler_CreateOrder_outcome r st :
  match decodeCreateOrderRequest (Body r) with
  | Err _ =>
      OrderHandler_CreateOrder r st
      = ([HttpError "Invalid request body" StatusBadRequest], st)
  | Ok orderDto =>
      exists new,
        calls (OrderHandler_CreateOrder r st).2 = calls st ++ new /\
        ((exists e,
            (CreateOrder orderDto st).1 = Err e /\
            (OrderHandler_CreateOrder r st).1
            = [HttpError (Error e) StatusInternalServerError] /\
            savedOrders new = []) \/
         (exists order,
            (CreateOrder orderDto st).1 = Ok order /\
            (OrderHandler_CreateOrder r st).1
            = [HeaderSet "Content-Type" "application/json";
               WriteHeader StatusCreated; Encode (JSONOrder order)] /\
            savedOrders new = [order]))
  end.
Proof.
  unfold OrderHandler_CreateOrder.
  destruct (decodeCreateOrderRequest (Body r)) as [orderDto|cause]; [|done].
  destruct (CreateOrder_saved orderDto st) as (new & Hcalls & Hsaved).
  exists new.
  destruct (CreateOrder orderDto st) as [[order|e] st']; simpl in *.
  - split; [done|]. right. by exists order.
  - split; [done|]. left. by exists e.
Qed.

(** X8.  The order lookup handler replies 400 to an empty id without
    calling the service.  For any other id it gives one and the same
    reply, 404 "Order not found", whether the id is malformed, the order
    is unknown or the repository failed; a malformed id never reaches the
    repository.  It replies 200 with the order only when the id parses
    and the repository, asked once for the canonical id, returns it. *)
Theorem OrderHandler_GetOrderByID_replies r st :
  let id := URLParam r "id" in
  OrderHandler_GetOrderByID r st
  = if decide (id = "") then
      ([HttpError "Invalid order ID" StatusBadRequest], st)
    else
      match uuid_Parse id with
      | Err _ => ([HttpError "Order not found" StatusNotFound], st)
      | Ok u =>
          let answer := repo_GetOrderByID (uuid_String u) (world st) in
          (match answer.1 with
           | Ok order => [HeaderSet "Content-Type" "application/json";
                          WriteHeader StatusOK; Encode (JSONOrder order)]
           | Err _ => [HttpError "Order not found" StatusNotFound]
           end,
           {| world := answer.2;
              calls := calls st
                       ++ [CallRepoGetOrderByID (uuid_String u) answer.1] |})
      end.
Proof.
  intros id. unfold OrderHandler_GetOrderByID. fold id.
  destruct (decide (id = "")) as [->|Hid]; [done|].
  destruct (String.eqb_spec id "") as [Heq|_]; [done|].
  unfold GetOrderByID.
  destruct (uuid_Parse id) as [u|cause]; [|done].
  run. destruct (repo_GetOrderByID (uuid_String u) (world st)) as [res w'].
  by destruct res.
Qed.

(** X9.  The order listing handler always makes exactly one repository
    call, with a page of at least 1 and a size of at least 1: the page is
    the number sent when it parses and is at least 1, else 1; the size is
    the number sent when it parses and is positive, else 10.  The
    service's own normalisation changes nothing after the handler's.  A
    repository failure is answered 500 with a fixed text. *)
Theorem OrderHandler_GetOrders_pagination r st :
  let page := match Atoi (Query r "page") with
              | Ok n => Z.max 1 n
              | Err _ => 1
              end in
  let size := match Atoi (Query r "pageSize") with
              | Ok n => if 0 <? n then n else 10
              | Err _ => 10
              end in
  let answer := repo_GetOrders page size (world st) in
  OrderHandler_GetOrders r st
  = (match answer.1 with
     | Ok orders => [HeaderSet "Content-Type" "application/json";
                     WriteHeader StatusOK; Encode (JSONOrders orders)]
     | Err _ => [HttpError "Failed to retrieve orders"
                           StatusInternalServerError]
     end,
     {| world := answer.2;
        calls := calls st ++ [CallRepoGetOrders page size answer.1] |}) /\
  1 <= page /\ 1 <= size.
Proof.
  intros page size answer.
  assert (Hpage : 1 <= page).
  { unfold page. destruct (Atoi (Query r "page")); lia. }
  assert (Hsize : 1 <= size).
  { unfold size. destruct (Atoi (Query r "pageSize")) as [n|]; [|lia].
    destruct (Z.ltb_spec 0 n); lia. }
  split; [|done].
  unfold OrderHandler_GetOrders.
  replace (match Atoi (Query r "page") with
           | Ok page0 => if page0 <? 1 then 1 else page0
           | Err _ => 1
           end) with page
    by (unfold page; destruct (Atoi (Query r "page")) as [n|]; [|done];
        destruct (Z.ltb_spec n 1); lia).
  replace (match Atoi (Query r "pageSize") with
           | Ok size0 => if size0 <=? 0 then 10 else size0
           | Err _ => 10
           end) with size
    by (unfold size; destruct (Atoi (Query r "pageSize")) as [n|]; [|done];
        destruct (Z.leb_spec n 0), (Z.ltb_spec 0 n); lia).
  unfold GetOrders. run.
  destruct (Z.leb_spec page 0); [lia|].
  destruct (Z.leb_spec size 0); [lia|].
  fold answer. destruct answer as [res w']. by destruct res.
Qed.

(** *** The product handler *)

(** X10.  With an empty id, the update, lookup and delete handlers reply
    400 "Invalid product ID" and call nothing; the update handler does so
    before it looks at the body. *)
Theorem ProductHandler_empty_id r sv :
  URLParam r "id" = "" ->
  let reply : Reply := [HttpError "Invalid product ID" StatusBadRequest] in
  ProductHandler_UpdateProduct r sv = (reply, sv) /\
  ProductHandler_GetProductByID r sv = (reply, sv) /\
  ProductHandler_DeleteProduct r sv = (reply, sv).
Proof.
  intros Hid reply.
  unfold ProductHandler_UpdateProduct, ProductHandler_GetProductByID,
    ProductHandler_DeleteProduct.
  by rewrite Hid.
Qed.

(** X11.  A body that does not decode never reaches the product service.
    The create handler replies 400 "Invalid request body" and calls
    nothing, whatever else the request holds.  So does the update
    handler, except that it checks the id first and replies 400 "Invalid
    product ID" when that is empty. *)
Theorem ProductHandler_malformed_body r sv cause :
  decodeCreateProductRequest (Body r) = Err cause ->
  ProductHandler_CreateProduct r sv
  = ([HttpError "Invalid request body" StatusBadRequest] : Reply, sv) /\
  ProductHandler_UpdateProduct r sv
  = ([HttpError (if decide (URLParam r "id" = "") then "Invalid product ID"
                 else "Invalid request body") StatusBadRequest] : Reply, sv).
Proof.
  intros Hbody.
  unfold ProductHandler_CreateProduct, ProductHandler_UpdateProduct.
  rewrite Hbody. split; [done|].
  destruct (decide (URLParam r "id" = "")) as [->|Hid]; [done|].
  by destruct (String.eqb_spec (URLParam r "id") "").
Qed.

(** X12.  Given a non-empty id, the lookup, delete and update handlers
    tell a missing product by the text of the service's error: whenever
    the call they make to the service fails with a message that has "not
    found" anywhere in it, the reply is 404 "Product not found", and
    that call is the only one made.  The lookup and delete handlers do
    so whatever the body; the update handler needs a body that decodes. *)
Theorem ProductHandler_not_found_by_message r sv :
  let id := URLParam r "id" in
  id <> "" ->
  let reply : Reply := [HttpError "Product not found" StatusNotFound] in
  (forall e w',
     GetProductByID id (store_world sv) = (Err e, w') ->
     (exists a b, Error e = a +:+ "not found" +:+ b) ->
     ProductHandler_GetProductByID r sv
     = (reply, {| store_world := w';
                  served := served sv ++ [CallProductByID id (Err e)] |})) /\
  (forall e w',
     DeleteProduct id (store_world sv) = (Some e, w') ->
     (exists a b, Error e = a +:+ "not found" +:+ b) ->
     ProductHandler_DeleteProduct r sv
     = (reply, {| store_world := w';
                  served := served sv ++ [CallDeleteProduct id (Some e)] |})) /\
  (forall productDto e w',
     decodeCreateProductRequest (Body r) = Ok productDto ->
     UpdateProduct id productDto (store_world sv) = (Err e, w') ->
     (exists a b, Error e = a +:+ "not found" +:+ b) ->
     ProductHandler_UpdateProduct r sv
     = (reply,
        {| store_world := w';
           served := served sv ++ [CallUpdateProduct id productDto (Err e)] |})).
Proof.
  intros id Hid reply.
  unfold ProductHandler_UpdateProduct, ProductHandler_GetProductByID,
    ProductHandler_DeleteProduct. fold id.
  destruct (String.eqb_spec id "") as [Heq|_]; [done|].
  repeat split.
  - intros e w' Hcall Hmsg. apply Contains_occurs in Hmsg.
    run. rewrite Hcall. simpl. by rewrite Hmsg.
  - intros e w' Hcall Hmsg. apply Contains_occurs in Hmsg.
    run. rewrite Hcall. simpl. by rewrite Hmsg.
  - intros productDto e w' Hbody Hcall Hmsg. apply Contains_occurs in Hmsg.
    rewrite Hbody. run. rewrite Hcall. simpl. by rewrite Hmsg.
Qed.

(** X13.  Given a non-empty id, whenever the call to the service fails
    with a message that has "not found" nowhere in it, the lookup,
    delete and update handlers reply 500 with a text fixed per handler;
    the service's message is not passed on.  The lookup and delete
    handlers do so whatever the body; the update handler needs a body
    that decodes. *)
Theorem ProductHandler_other_errors_are_500 r sv :
  let id := URLParam r "id" in
  id <> "" ->
  (forall e w',
     GetProductByID id (store_world sv) = (Err e, w') ->
     (forall a b, Error e <> a +:+ "not found" +:+ b) ->
     ProductHandler_GetProductByID r sv
     = ([HttpError "Error retrieving product" StatusInternalServerError]
          : Reply,
        {| store_world := w';
           served := served sv ++ [CallProductByID id (Err e)] |})) /\
  (forall e w',
     DeleteProduct id (store_world sv) = (Some e, w') ->
     (forall a b, Error e <> a +:+ "not found" +:+ b) ->
     ProductHandler_DeleteProduct r sv
     = ([HttpError "Error deleting product" StatusInternalServerError]
          : Reply,
        {| store_world := w';
           served := served sv ++ [CallDeleteProduct id (Some e)] |})) /\
  (forall productDto e w',
     decodeCreateProductRequest (Body r) = Ok productDto ->
     UpdateProduct id productDto (store_world sv) = (Err e, w') ->
     (forall a b, Error e <> a +:+ "not found" +:+ b) ->
     ProductHandler_UpdateProduct r sv
     = ([HttpError "Error updating product" StatusInternalServerError]
          : Reply,
        {| store_world := w';
           served := served sv ++ [CallUpdateProduct id productDto (Err e)] |})).
Proof.
  intros id Hid.
  assert (Hno : forall e, (forall a b, Error e <> a +:+ "not found" +:+ b) ->
                          Contains (Error e) "not found" = false).
  { intros e He. destruct (Contains (Error e) "not found") eqn:Hc; [|done].
    apply Contains_occurs in Hc as (a & b & Hab). by destruct (He a b). }
  unfold ProductHandler_UpdateProduct, ProductHandler_GetProductByID,
    ProductHandler_DeleteProduct. fold id.
  destruct (String.eqb_spec id "") as [Heq|_]; [done|].
  repeat split.
  - intros e w' Hcall Hmsg. apply Hno in Hmsg.
    run. rewrite Hcall. simpl. by rewrite Hmsg.
  - intros e w' Hcall Hmsg. apply Hno in Hmsg.
    run. rewrite Hcall. simpl. by rewrite Hmsg.
  - intros productDto e w' Hbody Hcall Hmsg. apply Hno in Hmsg.
    rewrite Hbody. run. rewrite Hcall. simpl. by rewrite Hmsg.
Qed.

(** X14.  Wrapping does not change the answer: when the product service
    returns a not-found error wrapped with [%w] under any text, the
    lookup handler still replies 404 "Product not found". *)
Theorem wrapped_not_found_stays_404 r sv text cause w' :
  let id := URLParam r "id" in
  id <> "" ->
  GetProductByID id (store_world sv) = (Err (Errorf text cause), w') ->
  Contains (Error cause) "not found" = true ->
  let reply : Reply := [HttpError "Product not found" StatusNotFound] in
  ProductHandler_GetProductByID r sv
  = (reply,
     {| store_world := w';
        served := served sv
                  ++ [CallProductByID id (Err (Errorf text cause))] |}).
Proof.
  intros id Hid Hget Hcause reply.
  unfold ProductHandler_GetProductByID. fold id.
  destruct (String.eqb_spec id "") as [Heq|_]; [done|].
  pose proof (Contains_wrapped text cause "not found" Hcause) as Hwrapped.
  run. rewrite Hget. simpl in *. by rewrite Hwrapped.
Qed.

(** X15.  The product listing handler always makes exactly one call to
    the service, with the category as sent (empty when absent), a page of
    at least 1 and a size of at least 1, normalised as for orders.  A
    failure is answered 500 with the service error's message. *)
Theorem ProductHandler_GetProducts_pagination r sv :
  let page := match Atoi (Query r "page") with
              | Ok n => Z.max 1 n
              | Err _ => 1
              end in
  let size := match Atoi (Query r "pageSize") with
              | Ok n => if 0 <? n then n else 10
              | Err _ => 10
              end in
  let category := Query r "category" in
  let answer := GetProducts category page size (store_world sv) in
  ProductHandler_GetProducts r sv
  = (match answer.1 with
     | Ok products => [HeaderSet "Content-Type" "application/json";
                       WriteHeader StatusOK; Encode (JSONProducts products)]
     | Err err => [HttpError (Error err) StatusInternalServerError]
     end : Reply,
     {| store_world := answer.2;
        served := served sv
                  ++ [CallGetProducts category page size answer.1] |}) /\
  1 <= page /\ 1 <= size.
Proof.
  intros page size category answer.
  assert (Hpage : 1 <= page).
  { unfold page. destruct (Atoi (Query r "page")); lia. }
  assert (Hsize : 1 <= size).
  { unfold size. destruct (Atoi (Query r "pageSize")) as [n|]; [|lia].
    destruct (Z.ltb_spec 0 n); lia. }
  split; [|done].
  unfold ProductHandler_GetProducts.
  replace (match Atoi (Query r "page") with
           | Ok page0 => if page0 <? 1 then 1 else page0
           | Err _ => 1
           end) with page
    by (unfold page; destruct (Atoi (Query r "page")) as [n|]; [|done];
        destruct (Z.ltb_spec n 1); lia).
  replace (match Atoi (Query r "pageSize") with
           | Ok size0 => if size0 <=? 0 then 10 else size0
           | Err _ => 10
           end) with size
    by (unfold size; destruct (Atoi (Query r "pageSize")) as [n|]; [|done];
        destruct (Z.leb_spec n 0), (Z.ltb_spec 0 n); lia).
  run. fold category. fold answer. destruct answer as [res w']. by destruct res.
Qed.

End HandlerProperties.

(** ** The properties on the concrete world *)

Import Fixture.

(** C1.  The total of an order is to equal the sum of its line totals.
    On this request it does not, and the order is saved all the same.
    The request names P1 on two lines while another session raises its
    price from 10 to 20 between the two lookups.  Both lookups succeed;
    the total adds 10 x 1 and 20 x 1, price by price as the lookups
    returned them, but both items are priced from the map, which by then
    holds 20 for P1.  The constructor receives, and the repository saves,
    total 30 with line totals 20 and 20, which sum to 40.  The products
    and sums are exact here, so the figures are the same whether or not
    the target fuses the multiplication with the addition. *)
Theorem total_differs_from_line_totals :
  forall target : Target,
    let req := request [("P1", 1); ("P1", 1)] in
    let P1' := {| product_id := "P1"; product_price := 20 |} in
    GetClientByCPF (dto.Client req) repricing
    = (Ok "11122233344", repricing) /\
    (lookups (dto.ID <$> dto.Products req) repricing).1 = [Ok P1; Ok P1'] /\
    exists order,
      calls (CreateOrder (target := target) req (start repricing)).2
      = [clientCall;
         CallGetProductByID "P1" (Ok P1); CallGetProductByID "P1" (Ok P1');
         CallNewOrder "11122233344"
                      [item "P1" 1 20%float; item "P1" 1 20%float]
                      "pending" 30%float (Ok order);
         CallRepoCreateOrder order (Ok order)] /\
      (CreateOrder (target := target) req (start repricing)).1 = Ok order /\
      orders (world (CreateOrder (target := target) req (start repricing)).2)
      = [order] /\
      order_total order = 30%float /\
      sum_float64 (domain.Price <$> order_items order) = 40%float.
Proof.
  intros [[|]] req P1'; (split; [reflexivity|]); (split; [reflexivity|]);
    eexists; repeat split; reflexivity.
Qed.

(** The two kinds of target differ in the last place: with prices
    0.1 and 0.3 for one and three units, the fused total is 1 and the
    other one 0.9999999999999999. *)
Example orderTotal_by_target :
  let lines := [line "P1" 1; line "P2" 3] in
  let ps := [ {| product_id := "P1"; product_price := 0x1.999999999999ap-4 |};
              {| product_id := "P2"; product_price := 0x1.3333333333333p-2 |} ] in
  orderTotal (target := fused) lines ps = 1%float /\
  orderTotal (target := unfused) lines ps = 0x1.fffffffffffffp-1%float.
Proof. split; reflexivity. Qed.

(** Product P9 does not exist: the second lookup fails, P2 is never looked
    up, and nothing is written. *)
Lemma product_failure_fails_fast_witness :
  let e := Errorf "product validation failed for product ID P9: "
                  ErrProductNotFound in
  let made := [clientCall; CallGetProductByID "P1" (Ok P1);
               CallGetProductByID "P9" (Err ErrProductNotFound)] in
  CreateOrder (request [("P1", 1); ("P9", 1); ("P2", 1)]) (start shop)
  = (Err e, {| world := shop; calls := [] ++ made |}) /\
  ProductValidationFailed "P9" e /\
  Unwrap e = Some ErrProductNotFound /\
  Error e = "product validation failed for product ID P9: product not found" /\
  length (List.filter isProductLookup made) = 2%nat /\
  List.filter isWrite made = [].
Proof.
  apply (product_failure_fails_fast
           (request [("P1", 1); ("P9", 1); ("P2", 1)])
           [line "P1" 1] (line "P9" 1) [line "P2" 1]
           shop shop shop shop [] "11122233344" [P1] ErrProductNotFound);
    reflexivity.
Defined.

(** An unregistered client: one call, the failed lookup. *)
Lemma client_failure_aborts_witness :
  let req := {| dto.Client := "00000000000";
                dto.Products := [line "P1" 1]; dto.Status := "pending" |} in
  let e := Errorf "client validation failed: " ErrClientNotFound in
  CreateOrder req (start shop)
  = (Err e,
     {| world := shop;
        calls := [] ++ [CallGetClientByCPF "00000000000" (Err ErrClientNotFound)] |}) /\
  ClientValidationFailed e /\
  Unwrap e = Some ErrClientNotFound /\
  Error e = "client validation failed: client not found".
Proof.
  apply (client_failure_aborts
           {| dto.Client := "00000000000";
              dto.Products := [line "P1" 1]; dto.Status := "pending" |}
           shop shop [] ErrClientNotFound).
  reflexivity.
Defined.

(** A request without lines reaches the constructor, which here refuses
    an empty item list. *)
Lemma empty_request_reaches_constructor_witness :
  CreateOrder (request []) (start shop)
  = (Err (Errorf "failed to create order instance: " ErrNoItems),
     {| world := shop;
        calls := [] ++ [clientCall;
                        CallNewOrder "11122233344" [] "pending" 0%float
                                     (Err ErrNoItems)] |}).
Proof.
  refine (empty_request_reaches_constructor (request []) shop [] _).
  reflexivity.
Defined.

(** The worked scenario, call by call. *)
Lemma successful_creation_call_sequence_witness :
  let req := request [("P1", 2); ("P2", 3)] in
  let savedOrder :=
    {| order_id := "00000000-0000-0000-0000-000000000001";
       order_client := "11122233344";
       order_items := [item "P1" 2 20%float; item "P2" 3 16.5%float];
       order_status := "pending";
       order_total := 36.5%float |} in
  exists client ps items total order,
    let made := CallGetClientByCPF (dto.Client req) (Ok client)
                :: productCalls (dto.Products req) ps
                ++ [CallNewOrder (dto.Client req) items (dto.Status req)
                                 total (Ok order);
                    CallRepoCreateOrder order (Ok savedOrder)] in
    calls (CreateOrder req (start shop)).2 = calls (start shop) ++ made /\
    length ps = 2%nat /\
    length (List.filter isClientLookup made) = 1%nat /\
    length (List.filter isProductLookup made) = 2%nat /\
    List.filter isWrite made = [CallRepoCreateOrder order (Ok savedOrder)] /\
    last made = Some (CallRepoCreateOrder order (Ok savedOrder)).
Proof.
  intros req savedOrder.
  apply (successful_creation_call_sequence req (start shop) savedOrder
           (CreateOrder req (start shop)).2).
  reflexivity.
Defined.

(** Pagination on the concrete store: no hypothesis to discharge. *)
Example GetOrders_first_page :
  GetOrders 0 (-5) (start shop)
  = (Ok [], {| world := shop; calls := [CallRepoGetOrders 1 10 (Ok [])] |}).
Proof. reflexivity. Qed.

(** "not-a-uuid" does not parse; the repository is not asked. *)
Lemma malformed_id_rejected_witness :
  let e := Errorf "invalid ID format: " (ErrNew "invalid UUID length: 10") in
  GetOrderByID (UUID := UUID) "not-a-uuid" (start shop) = (Err e, start shop) /\
  InvalidIdentifierFormat e /\
  Unwrap e = Some (ErrNew "invalid UUID length: 10") /\
  Error e = "invalid ID format: invalid UUID length: 10".
Proof.
  apply (malformed_id_rejected (UUID := UUID) "not-a-uuid" (start shop)
           (ErrNew "invalid UUID length: 10")).
  reflexivity.
Defined.

(** A well-formed identifier of no stored order: the repository's
    not-found error comes back under the wrapper. *)
Lemma repository_error_reported_as_not_found_witness :
  let e := Errorf "order not found: " ErrNoDocuments in
  (GetOrderByID (UUID := UUID) "00000000-0000-0000-0000-0000000000ab"
                (start shop)).1 = Err e /\
  OrderNotFound e /\
  Unwrap e = Some ErrNoDocuments /\
  Error e = "order not found: mongo: no documents in result".
Proof.
  refine (repository_error_reported_as_not_found (UUID := UUID)
            "00000000-0000-0000-0000-0000000000ab" (start shop) idAB _).
  reflexivity.
Defined.

(** C6, as first stated, fails.  With the store unreachable the repository
    reports an error that is not its not-found error, and [GetOrderByID]
    returns it under the same "order not found" wrapper as a genuine miss:
    the outcome carries the OrderNotFound kind although the repository did
    not report not-found, and no other kind is produced. *)
Lemma outage_reported_as_not_found :
  let id := "00000000-0000-0000-0000-0000000000ab" in
  uuid_Parse id = Ok idAB /\
  (repo_GetOrderByID (uuid_String idAB) offline).1 = Err ErrUnreachable /\
  ErrUnreachable <> ErrNoDocuments /\
  (GetOrderByID (UUID := UUID) id (start offline)).1
  = Err (Errorf "order not found: " ErrUnreachable) /\
  OrderNotFound (Errorf "order not found: " ErrUnreachable) /\
  (GetOrderByID (UUID := UUID) id (start shop)).1
  = Err (Errorf "order not found: " ErrNoDocuments).
Proof.
  intros id. repeat split; try reflexivity.
  - discriminate.
  - by exists ErrUnreachable.
Qed.

(** Upper-case and lower-case spellings of one identifier: one query, in
    the canonical lower-case form. *)
Lemma lookup_uses_canonical_id_witness :
  GetOrderByID (UUID := UUID) "00000000-0000-0000-0000-0000000000AB" (start shop)
  = (Err (Errorf "order not found: " ErrNoDocuments),
     {| world := shop;
        calls := [] ++ [CallRepoGetOrderByID
                          "00000000-0000-0000-0000-0000000000ab"
                          (Err ErrNoDocuments)] |}) /\
  GetOrderByID (UUID := UUID) "00000000-0000-0000-0000-0000000000ab" (start shop)
  = GetOrderByID (UUID := UUID) "00000000-0000-0000-0000-0000000000AB" (start shop).
Proof.
  refine (lookup_uses_canonical_id (UUID := UUID)
            "00000000-0000-0000-0000-0000000000AB"
            "00000000-0000-0000-0000-0000000000ab" (start shop) idAB _ _);
    reflexivity.
Defined.


(** ** The further properties on the concrete world *)

(** The constructor refuses a request without lines; nothing is written. *)
Lemma construction_failure_is_wrapped_witness :
  CreateOrder (request []) (start shop)
  = (Err (Errorf "failed to create order instance: " ErrNoItems),
     {| world := shop;
        calls := [] ++ clientCall
                    :: productCalls (dto.Products (request [])) []
                    ++ [CallNewOrder "11122233344" [] "pending" 0%float
                                     (Err ErrNoItems)] |}).
Proof.
  refine (proj1 (construction_failure_is_wrapped (request []) shop shop shop
                   shop [] "11122233344" [] ErrNoItems _ _ _));
    reflexivity.
Defined.

(** With the store unreachable the order is built but not saved. *)
Lemma persistence_failure_is_wrapped_witness :
  let order := {| order_id := "00000000-0000-0000-0000-000000000001";
                  order_client := "11122233344";
                  order_items := [item "P1" 1 10%float];
                  order_status := "pending";
                  order_total := 10%float |} in
  (CreateOrder (request [("P1", 1)]) (start offline)).1
  = Err (Errorf "failed to save order: " ErrUnreachable) /\
  calls (CreateOrder (request [("P1", 1)]) (start offline)).2
  = [clientCall; CallGetProductByID "P1" (Ok P1);
     CallNewOrder "11122233344" [item "P1" 1 10%float] "pending" 10%float
                  (Ok order);
     CallRepoCreateOrder order (Err ErrUnreachable)].
Proof.
  intros order.
  destruct (persistence_failure_is_wrapped
              (request [("P1", 1)]) offline offline offline
              (NewOrder "11122233344" [item "P1" 1 10%float] "pending"
                        10%float offline).2
              (NewOrder "11122233344" [item "P1" 1 10%float] "pending"
                        10%float offline).2
              [] "11122233344" [P1] order ErrUnreachable)
    as (Hrun & _); [reflexivity | reflexivity | reflexivity | reflexivity |].
  unfold start. rewrite Hrun. split; reflexivity.
Defined.

(** The same failed run: a persistence error, and no order reported saved. *)
Lemma CreateOrder_failure_saves_nothing_witness :
  let e := Errorf "failed to save order: " ErrUnreachable in
  (ClientValidationFailed e \/
   (exists l, l ∈ dto.Products (request [("P1", 1)]) /\
              ProductValidationFailed (dto.ID l) e) \/
   OrderConstructionFailed e \/
   PersistenceFailed e) /\
  exists new,
    calls (CreateOrder (request [("P1", 1)]) (start offline)).2
    = calls (start offline) ++ new /\
    savedOrders new = [].
Proof.
  refine (CreateOrder_failure_saves_nothing (request [("P1", 1)])
            (start offline) (Errorf "failed to save order: " ErrUnreachable)
            (CreateOrder (request [("P1", 1)]) (start offline)).2 _).
  reflexivity.
Defined.

(** P1 on the first and the third line, its price raised from 10 to 20 in
    between: the constructor gets the first line at 20 x 1 and the third
    at 20 x 3. *)
Lemma repeated_product_takes_last_price_witness :
  let req := request [("P1", 1); ("P2", 1); ("P1", 3)] in
  let P1' := {| product_id := "P1"; product_price := 20 |} in
  exists items total rn tail,
    calls (CreateOrder req (start repricing)).2
    = [] ++ clientCall
         :: productCalls (dto.Products req) [P1; P2; P1']
         ++ CallNewOrder "11122233344" items "pending" total rn :: tail /\
    length items = 3%nat /\
    items !! 0%nat = Some (item "P1" 1 20%float) /\
    items !! 2%nat = Some (item "P1" 3 60%float).
Proof.
  intros req P1'.
  destruct (repeated_product_takes_last_price
              req repricing repricing
              (lookups (dto.ID <$> dto.Products req) repricing).2
              [] "11122233344" [P1; P2; P1']
              [line "P1" 1; line "P2" 1] (line "P1" 3) [] [P1; P2] [] P1')
    as (items & total & rn & tail & Hcalls & Hlen & Hitems);
    [reflexivity | reflexivity | reflexivity | reflexivity | reflexivity
    | apply not_elem_of_nil |].
  exists items, total, rn, tail. split; [exact Hcalls|].
  split; [exact Hlen|]. split.
  - exact (Hitems 0%nat (line "P1" 1) eq_refl eq_refl).
  - exact (Hitems 2%nat (line "P1" 3) eq_refl eq_refl).
Defined.

(** An empty id, whatever the body. *)
Lemma ProductHandler_empty_id_witness :
  let r := HttpFixture.onID "" "no body" in
  let sv := HttpFixture.open shop in
  let reply : list (Write Order Product) :=
    [HttpError "Invalid product ID" StatusBadRequest] in
  ProductHandler_UpdateProduct
    (productDecoder := HttpFixture.productDecoder)
    (productAdmin := HttpFixture.productAdmin) r sv = (reply, sv) /\
  ProductHandler_GetProductByID
    (productService := HttpFixture.productLookup) r sv = (reply, sv) /\
  ProductHandler_DeleteProduct
    (productAdmin := HttpFixture.productAdmin) r sv = (reply, sv).
Proof.
  refine (ProductHandler_empty_id
            (productService := HttpFixture.productLookup)
            (productDecoder := HttpFixture.productDecoder)
            (productAdmin := HttpFixture.productAdmin)
            (HttpFixture.onID "" "no body") (HttpFixture.open shop) _).
  reflexivity.
Defined.

(** A body cut off in the middle: a plain POST is answered 400 by the
    create handler, and so is a PUT on P1 by the update handler. *)
Lemma ProductHandler_malformed_body_witness :
  let sv := HttpFixture.open shop in
  let reply : list (Write Order Product) :=
    [HttpError "Invalid request body" StatusBadRequest] in
  ProductHandler_CreateProduct
    (productDecoder := HttpFixture.productDecoder)
    (productAdmin := HttpFixture.productAdmin)
    (HttpFixture.post HttpFixture.cutOff) sv = (reply, sv) /\
  ProductHandler_UpdateProduct
    (productDecoder := HttpFixture.productDecoder)
    (productAdmin := HttpFixture.productAdmin)
    (HttpFixture.onID "P1" HttpFixture.cutOff) sv = (reply, sv).
Proof.
  intros sv reply. split.
  - refine (proj1 (ProductHandler_malformed_body
                     (Order := Order)
                     (productDecoder := HttpFixture.productDecoder)
                     (productAdmin := HttpFixture.productAdmin)
                     (HttpFixture.post HttpFixture.cutOff) sv
                     HttpFixture.ErrBody _)).
    reflexivity.
  - refine (proj2 (ProductHandler_malformed_body
                     (Order := Order)
                     (productDecoder := HttpFixture.productDecoder)
                     (productAdmin := HttpFixture.productAdmin)
                     (HttpFixture.onID "P1" HttpFixture.cutOff) sv
                     HttpFixture.ErrBody _)).
    reflexivity.
Defined.

(** Product P9 is not in the catalogue.  A GET and a DELETE, without
    body, and a PUT with a new price are all answered 404; the lookup and
    update services had wrapped the not-found error. *)
Lemma ProductHandler_not_found_by_message_witness :
  let sv := HttpFixture.open shop in
  let reply : list (Write Order Product) :=
    [HttpError "Product not found" StatusNotFound] in
  (ProductHandler_GetProductByID
     (productService := HttpFixture.productLookup)
     (HttpFixture.onID "P9" "") sv).1 = reply /\
  (ProductHandler_DeleteProduct
     (productAdmin := HttpFixture.productAdmin)
     (HttpFixture.onID "P9" "") sv).1 = reply /\
  (ProductHandler_UpdateProduct
     (productDecoder := HttpFixture.productDecoder)
     (productAdmin := HttpFixture.productAdmin)
     (HttpFixture.onID "P9" HttpFixture.newPrice) sv).1 = reply.
Proof.
  intros sv reply.
  destruct (ProductHandler_not_found_by_message
              (Order := Order)
              (productService := HttpFixture.productLookup)
              (productDecoder := HttpFixture.productDecoder)
              (productAdmin := HttpFixture.productAdmin)
              (HttpFixture.onID "P9" "") sv)
    as (Hget & Hdel & _); [discriminate|].
  destruct (ProductHandler_not_found_by_message
              (Order := Order)
              (productService := HttpFixture.productLookup)
              (productDecoder := HttpFixture.productDecoder)
              (productAdmin := HttpFixture.productAdmin)
              (HttpFixture.onID "P9" HttpFixture.newPrice) sv)
    as (_ & _ & Hupd); [discriminate|].
  split; [|split].
  - rewrite (Hget (Errorf "failed to get product: " ErrProductNotFound) shop);
      [reflexivity | reflexivity
      | by exists "failed to get product: product ", ""].
  - rewrite (Hdel ErrProductNotFound shop);
      [reflexivity | reflexivity | by exists "product ", ""].
  - rewrite (Hupd {| HttpFixture.request_price := 12.5 |}
                  (Errorf "failed to update product: " ErrProductNotFound)
                  shop);
      [reflexivity | reflexivity | reflexivity
      | by exists "failed to update product: product ", ""].
Defined.

(** With the store unreachable the same three requests, on P1, are
    answered 500, each handler with its own fixed text. *)
Lemma ProductHandler_other_errors_are_500_witness :
  let sv := HttpFixture.open offline in
  (ProductHandler_GetProductByID
     (Order := Order)
     (productService := HttpFixture.productLookup)
     (HttpFixture.onID "P1" "") sv).1
  = [HttpError "Error retrieving product" StatusInternalServerError] /\
  (ProductHandler_DeleteProduct
     (Order := Order) (Product := Product)
     (productAdmin := HttpFixture.productAdmin)
     (HttpFixture.onID "P1" "") sv).1
  = [HttpError "Error deleting product" StatusInternalServerError] /\
  (ProductHandler_UpdateProduct
     (Order := Order)
     (productDecoder := HttpFixture.productDecoder)
     (productAdmin := HttpFixture.productAdmin)
     (HttpFixture.onID "P1" HttpFixture.newPrice) sv).1
  = [HttpError "Error updating product" StatusInternalServerError].
Proof.
  intros sv.
  assert (Hno : forall a b, Error ErrUnreachable <> a +:+ "not found" +:+ b).
  { intros a b Hab.
    assert (Hc : Contains (Error ErrUnreachable) "not found" = true)
      by (apply Contains_occurs; by exists a, b).
    vm_compute in Hc. discriminate Hc. }
  destruct (ProductHandler_other_errors_are_500
              (Order := Order)
              (productService := HttpFixture.productLookup)
              (productDecoder := HttpFixture.productDecoder)
              (productAdmin := HttpFixture.productAdmin)
              (HttpFixture.onID "P1" "") sv)
    as (Hget & Hdel & _); [discriminate|].
  destruct (ProductHandler_other_errors_are_500
              (Order := Order)
              (productService := HttpFixture.productLookup)
              (productDecoder := HttpFixture.productDecoder)
              (productAdmin := HttpFixture.productAdmin)
              (HttpFixture.onID "P1" HttpFixture.newPrice) sv)
    as (_ & _ & Hupd); [discriminate|].
  split; [|split].
  - rewrite (Hget ErrUnreachable offline);
      [reflexivity | reflexivity | exact Hno].
  - rewrite (Hdel ErrUnreachable offline);
      [reflexivity | reflexivity | exact Hno].
  - rewrite (Hupd {| HttpFixture.request_price := 12.5 |}
                  ErrUnreachable offline);
      [reflexivity | reflexivity | reflexivity | exact Hno].
Defined.

(** The lookup service wraps its not-found error; the reply is still 404. *)
Lemma wrapped_not_found_stays_404_witness :
  let r := HttpFixture.onID "P9" "" in
  let e := Errorf "failed to get product: " ErrProductNotFound in
  Error e = "failed to get product: product not found" /\
  ProductHandler_GetProductByID
    (productService := HttpFixture.productLookup) r (HttpFixture.open shop)
  = ([HttpError "Product not found" StatusNotFound]
       : list (Write Order Product),
     {| store_world := shop;
        served := [] ++ [CallProductByID
                           (ProductRequest := HttpFixture.ProductRequest)
                           "P9" (Err e)] |}).
Proof.
  intros r e. split; [reflexivity|].
  refine (wrapped_not_found_stays_404
            (productService := HttpFixture.productLookup)
            r (HttpFixture.open shop) "failed to get product: "
            ErrProductNotFound shop _ _ _).
  - discriminate.
  - reflexivity.
  - reflexivity.
Defined.

(** The handlers on the concrete world. *)
Example OrderHandler_GetOrderByID_malformed :
  OrderHandler_GetOrderByID (UUID := UUID) (Product := Product)
    (HttpFixture.onID "not-a-uuid" "") (start shop)
  = ([HttpError "Order not found" 404], start shop).
Proof. reflexivity. Qed.

Example OrderHandler_GetOrders_defaults :
  calls (OrderHandler_GetOrders
           (strconv := HttpFixture.strconv)
           (HttpFixture.listing "0" "abc" "") (start shop)).2
  = [CallRepoGetOrders 1 10 (Ok [])].
Proof. reflexivity. Qed.

Example ProductHandler_GetProducts_second_page :
  served (ProductHandler_GetProducts
            (Order := Order)
            (strconv := HttpFixture.strconv)
            (productAdmin := HttpFixture.productAdmin)
            (HttpFixture.listing "2" "1" "drinks") (HttpFixture.open offline)).2
  = [CallGetProducts "drinks" 2 1 (Err ErrUnreachable)].
Proof. reflexivity. Qed.
